(** * bookish-engine: the chat service and its Redis-backed session store

    A shallow embedding of [app/services/ai_chat.py] and
    [app/services/redis.py], with the parts of the Python runtime they call
    ([json.dumps], [json.loads], the Redis commands SET/GET/RPUSH/LRANGE).

    Python strings are sequences of Unicode code points and are modelled as
    [list Z]; [lit] turns a literal of the source into such a sequence. *)

From Stdlib Require Import ZArith String Ascii List Lia.
From stdpp Require Import base option list gmap pretty.

Set Warnings "-register-all".

Local Open Scope Z_scope.

(** ** Python strings *)

Abbreviation str := (list Z).

Fixpoint lit (s : string) : str :=
  match s with
  | EmptyString => []
  | String a r => Z.of_N (N_of_ascii a) :: lit r
  end.
Arguments lit _%_string.

(** [sep.join(parts)] *)
Fixpoint join (sep : str) (parts : list str) : str :=
  match parts with
  | [] => []
  | [p] => p
  | p :: rest => p ++ sep ++ join sep rest
  end.

(** The line feed of the source's ["\n"]. *)
Definition LF : str := [10].

(** Python truthiness of a string: [if s:]. *)
Definition truthy (s : str) : bool :=
  match s with
  | [] => false
  | _ :: _ => true
  end.

(** A code point that is a Unicode scalar value: in range and not a
    surrogate.  Strings of scalar values are exactly those with a UTF-8
    encoding, which is what the request validation lets through and what
    the Redis client can send. *)
Definition scalar (c : Z) : Prop :=
  0 <= c < 55296 \/ 57344 <= c < 1114112.

Definition unicode_text (s : str) : Prop := Forall scalar s.

(** ** JSON values as [json.loads] builds them *)

Inductive json :=
| JNull
| JBool (b : bool)
| JNum (lexeme : str)
| JStr (s : str)
| JArr (items : list json)
| JObj (pairs : list (str * json)).

(** *** [json.dumps]: string escaping with [ensure_ascii=True] *)

Definition hex_digit (d : Z) : Z := if d <? 10 then 48 + d else 87 + d.

(** ['{0:04x}'.format(n)] *)
Definition hex4 (n : Z) : str :=
  [hex_digit (n / 4096 mod 16); hex_digit (n / 256 mod 16);
   hex_digit (n / 16 mod 16); hex_digit (n mod 16)].

Definition u_escape (n : Z) : str := 92 :: 117 :: hex4 n.

Definition escape_char (c : Z) : str :=
  if c =? 92 then [92; 92]
  else if c =? 34 then [92; 34]
  else if c =? 8 then [92; 98]
  else if c =? 12 then [92; 102]
  else if c =? 10 then [92; 110]
  else if c =? 13 then [92; 114]
  else if c =? 9 then [92; 116]
  else if (32 <=? c) && (c <=? 126) then [c]
  else if c <? 65536 then u_escape c
  else
    let n := c - 65536 in
    u_escape (Z.lor 55296 (Z.land (Z.shiftr n 10) 1023))
      ++ u_escape (Z.lor 56320 (Z.land n 1023)).

Fixpoint escape (s : str) : str :=
  match s with
  | [] => []
  | c :: r => escape_char c ++ escape r
  end.

Definition encode_basestring_ascii (s : str) : str :=
  34 :: escape s ++ [34].

(** [json.dumps] with the default separators [", "] and [": "]. *)
Fixpoint json_dumps (v : json) : str :=
  match v with
  | JNull => lit "null"
  | JBool true => lit "true"
  | JBool false => lit "false"
  | JNum lexeme => lexeme
  | JStr s => encode_basestring_ascii s
  | JArr items => 91 :: join (lit ", ") (map json_dumps items) ++ [93]
  | JObj pairs =>
      123 :: join (lit ", ")
               (map (fun p => encode_basestring_ascii (fst p) ++ lit ": "
                                ++ json_dumps (snd p)) pairs) ++ [125]
  end.

(** *** [json.loads] *)

Definition hex_value (c : Z) : option Z :=
  if (48 <=? c) && (c <=? 57) then Some (c - 48)
  else if (97 <=? c) && (c <=? 102) then Some (c - 87)
  else if (65 <=? c) && (c <=? 70) then Some (c - 55)
  else None.

Definition hex4_value (a b c d : Z) : option Z :=
  match hex_value a, hex_value b, hex_value c, hex_value d with
  | Some x, Some y, Some z, Some w => Some (x * 4096 + y * 256 + z * 16 + w)
  | _, _, _, _ => None
  end.

Definition is_high (u : Z) : bool := (55296 <=? u) && (u <=? 56319).
Definition is_low (u : Z) : bool := (56320 <=? u) && (u <=? 57343).

Definition join_surrogates (hi lo : Z) : Z :=
  65536 + Z.lor (Z.shiftl (hi - 55296) 10) (lo - 56320).

(** The table [BACKSLASH] of the decoder. *)
Definition backslash (e : Z) : option Z :=
  if e =? 34 then Some 34
  else if e =? 92 then Some 92
  else if e =? 47 then Some 47
  else if e =? 98 then Some 8
  else if e =? 102 then Some 12
  else if e =? 110 then Some 10
  else if e =? 114 then Some 13
  else if e =? 116 then Some 9
  else None.

Definition push (c : Z) (o : option (str * str)) : option (str * str) :=
  match o with
  | Some (x, r) => Some (c :: x, r)
  | None => None
  end.

(** [scanstring] in strict mode, from the character after the opening
    quote: the decoded string and the text after the closing quote. *)
Fixpoint scanstring (s : str) : option (str * str) :=
  match s with
  | [] => None
  | c :: r =>
    if c =? 34 then Some ([], r)
    else if c =? 92 then
      match r with
      | [] => None
      | e :: r1 =>
        if e =? 117 then
          match r1 with
          | h1 :: h2 :: h3 :: h4 :: r2 =>
            match hex4_value h1 h2 h3 h4 with
            | None => None
            | Some uni =>
              if is_high uni then
                match r2 with
                | b :: u :: r3 =>
                  if (b =? 92) && (u =? 117) then
                    match r3 with
                    | l1 :: l2 :: l3 :: l4 :: r4 =>
                      match hex4_value l1 l2 l3 l4 with
                      | None => None
                      | Some uni2 =>
                        if is_low uni2
                        then push (join_surrogates uni uni2) (scanstring r4)
                        else push uni (scanstring r2)
                      end
                    | _ => None
                    end
                  else push uni (scanstring r2)
                | _ => push uni (scanstring r2)
                end
              else push uni (scanstring r2)
            end
          | _ => None
          end
        else
          match backslash e with
          | Some x => push x (scanstring r1)
          | None => None
          end
      end
    else if c <? 32 then None
    else push c (scanstring r)
  end.

Definition is_ws (c : Z) : bool :=
  (c =? 32) || (c =? 9) || (c =? 10) || (c =? 13).

Fixpoint skip_ws (s : str) : str :=
  match s with
  | c :: r => if is_ws c then skip_ws r else s
  | [] => []
  end.

Fixpoint strip (p s : str) : option str :=
  match p, s with
  | [], _ => Some s
  | a :: p', b :: s' => if a =? b then strip p' s' else None
  | _ :: _, [] => None
  end.

Definition is_digit (c : Z) : bool := (48 <=? c) && (c <=? 57).

Fixpoint digits (s : str) : str * str :=
  match s with
  | c :: r => if is_digit c then let (d, r') := digits r in (c :: d, r')
              else ([], s)
  | [] => ([], [])
  end.

(** [NUMBER_RE]: an optional minus sign, then 0 or a digit string without a
    leading 0; an optional fraction (a dot and at least one digit); an
    optional exponent (e or E, an optional sign, at least one digit). *)
Definition match_integer (s : str) : option (str * str) :=
  let (sign, r) := match s with
                   | c :: r => if c =? 45 then ([45], r) else ([], s)
                   | [] => ([], s)
                   end in
  match r with
  | c :: r1 =>
    if c =? 48 then Some (sign ++ [48], r1)
    else if is_digit c then let (d, r2) := digits r1 in Some (sign ++ c :: d, r2)
    else None
  | [] => None
  end.

Definition match_frac (s : str) : str * str :=
  match s with
  | c :: r =>
    if c =? 46 then
      match digits r with
      | ([], _) => ([], s)
      | (d, r') => (46 :: d, r')
      end
    else ([], s)
  | [] => ([], s)
  end.

Definition match_exp (s : str) : str * str :=
  match s with
  | c :: r =>
    if (c =? 101) || (c =? 69) then
      let (sign, r1) := match r with
                        | x :: r' => if (x =? 45) || (x =? 43) then ([x], r')
                                     else ([], r)
                        | [] => ([], r)
                        end in
      match digits r1 with
      | ([], _) => ([], s)
      | (d, r2) => (c :: sign ++ d, r2)
      end
    else ([], s)
  | [] => ([], s)
  end.

Definition match_number (s : str) : option (str * str) :=
  match match_integer s with
  | None => None
  | Some (i, r) =>
    let (f, r1) := match_frac r in
    let (e, r2) := match_exp r1 in
    Some (i ++ f ++ e, r2)
  end.

Definition scan_constant (s : str) : option (json * str) :=
  match match_number s with
  | Some (lexeme, r) => Some (JNum lexeme, r)
  | None =>
    match strip (lit "NaN") s with
    | Some r => Some (JNum (lit "NaN"), r)
    | None =>
      match strip (lit "Infinity") s with
      | Some r => Some (JNum (lit "Infinity"), r)
      | None =>
        match strip (lit "-Infinity") s with
        | Some r => Some (JNum (lit "-Infinity"), r)
        | None => None
        end
      end
    end
  end.

(** The scanner; [n] bounds the depth of the calls, and the length of the
    text is always enough since every call consumes a character. *)
Fixpoint scan_once (n : nat) (s : str) {struct n} : option (json * str) :=
  match n with
  | O => None
  | S n =>
    match s with
    | [] => None
    | c :: r =>
      if c =? 34 then
        match scanstring r with
        | Some (x, r') => Some (JStr x, r')
        | None => None
        end
      else if c =? 123 then
        match skip_ws r with
        | d :: r1 =>
          if d =? 125 then Some (JObj [], r1)
          else if d =? 34 then
            match members n r1 with
            | Some (m, r2) => Some (JObj m, r2)
            | None => None
            end
          else None
        | [] => None
        end
      else if c =? 91 then
        match skip_ws r with
        | d :: r1 =>
          if d =? 93 then Some (JArr [], r1)
          else
            match elements n (d :: r1) with
            | Some (l, r2) => Some (JArr l, r2)
            | None => None
            end
        | [] => None
        end
      else
        match strip (lit "null") s with
        | Some r' => Some (JNull, r')
        | None =>
          match strip (lit "true") s with
          | Some r' => Some (JBool true, r')
          | None =>
            match strip (lit "false") s with
            | Some r' => Some (JBool false, r')
            | None => scan_constant s
            end
          end
        end
    end
  end
with members (n : nat) (s : str) {struct n} : option (list (str * json) * str) :=
  match n with
  | O => None
  | S n =>
    match scanstring s with
    | None => None
    | Some (key, r) =>
      match skip_ws r with
      | c :: r1 =>
        if c =? 58 then
          match scan_once n (skip_ws r1) with
          | None => None
          | Some (v, r2) =>
            match skip_ws r2 with
            | d :: r3 =>
              if d =? 125 then Some ([(key, v)], r3)
              else if d =? 44 then
                match skip_ws r3 with
                | q :: r4 =>
                  if q =? 34 then
                    match members n r4 with
                    | Some (m, r5) => Some ((key, v) :: m, r5)
                    | None => None
                    end
                  else None
                | [] => None
                end
              else None
            | [] => None
            end
          end
        else None
      | [] => None
      end
    end
  end
with elements (n : nat) (s : str) {struct n} : option (list json * str) :=
  match n with
  | O => None
  | S n =>
    match scan_once n s with
    | None => None
    | Some (v, r) =>
      match skip_ws r with
      | d :: r1 =>
        if d =? 93 then Some ([v], r1)
        else if d =? 44 then
          match elements n (skip_ws r1) with
          | Some (l, r2) => Some (v :: l, r2)
          | None => None
          end
        else None
      | [] => None
      end
    end
  end.

(** [json.loads(s)]: one value between optional whitespace, nothing after. *)
Definition json_loads (s : str) : option json :=
  match scan_once (S (length s)) (skip_ws s) with
  | Some (v, r) => match skip_ws r with
                   | [] => Some v
                   | _ :: _ => None
                   end
  | None => None
  end.

(** A double-quoted token of a JSON text, for the examples. *)
Definition quoted (s : string) : str := 34 :: lit s ++ [34].

(** ** Exceptions and results *)

Inductive exn :=
| HTTPException (status_code : Z) (detail : str)
| RedisError (message : str)
| JSONDecodeError (doc : str)
| KeyError (key : str)
| TypeError (subscripted : json)
| ModelError (message : str).

Inductive result (A : Type) :=
| Ok (a : A)
| Raise (e : exn).
Arguments Ok {A} a.
Arguments Raise {A} e.

Definition rbind {A B} (r : result A) (k : A -> result B) : result B :=
  match r with
  | Ok a => k a
  | Raise e => Raise e
  end.

Fixpoint rmap {A B} (f : A -> result B) (l : list A) : result (list B) :=
  match l with
  | [] => Ok []
  | a :: l' => rbind (f a) (fun b => rbind (rmap f l') (fun bs => Ok (b :: bs)))
  end.

(** What the service takes from outside the repository: the hosted model
    behind [self._llm.invoke(prompt).content], the text [str(e)] of an
    exception, and the text an f-string gives a decoded value that is not a
    string. *)
Class Runtime := {
  llm_invoke : str -> result str;
  exn_str : exn -> str;
  value_str : json -> str;
}.

(** ** The Redis server and its client *)

Inductive value :=
| VString (s : str)
| VList (l : list str).

(** The keyspace, the outcomes scheduled for the next commands ([Some e]: the
    client raises [e] and the server is left as it was; past the end of the
    schedule every command goes through), and the prompts sent to the model
    so far. *)
Record world := World {
  db : gmap str value;
  faults : list (option exn);
  sent : list str;
}.

Definition M (A : Type) : Type := world -> result A * world.

Definition ret {A} (a : A) : M A := fun w => (Ok a, w).

Definition raise {A} (e : exn) : M A := fun w => (Raise e, w).

Definition bind {A B} (m : M A) (k : A -> M B) : M B := fun w =>
  match m w with
  | (Ok a, w') => k a w'
  | (Raise e, w') => (Raise e, w')
  end.

Definition try_except {A} (m : M A) (handler : exn -> M A) : M A := fun w =>
  match m w with
  | (Ok a, w') => (Ok a, w')
  | (Raise e, w') => handler e w'
  end.

Definition lift {A} (r : result A) : M A := fun w => (r, w).

#[global] Instance M_ret : MRet M := @ret.
#[global] Instance M_bind : MBind M := fun A B k m => bind m k.

Definition WRONGTYPE : exn :=
  RedisError (lit "WRONGTYPE Operation against a key holding the wrong kind of value").

Definition command {A} (run : gmap str value -> result A * gmap str value) : M A :=
  fun w =>
    match faults w with
    | Some e :: rest => (Raise e, World (db w) rest (sent w))
    | _ => let (r, d) := run (db w) in (r, World d (tail (faults w)) (sent w))
    end.

Definition redis_set (key v : str) : M bool :=
  command (fun d => (Ok true, <[key := VString v]> d)).

Definition redis_get (key : str) : M (option str) :=
  command (fun d =>
    match d !! key with
    | None => (Ok None, d)
    | Some (VString s) => (Ok (Some s), d)
    | Some (VList _) => (Raise WRONGTYPE, d)
    end).

Definition redis_rpush (key v : str) : M nat :=
  command (fun d =>
    match d !! key with
    | None => (Ok 1%nat, <[key := VList [v]]> d)
    | Some (VList l) => (Ok (length (l ++ [v])), <[key := VList (l ++ [v])]> d)
    | Some (VString _) => (Raise WRONGTYPE, d)
    end).

(** [LRANGE key 0 -1] *)
Definition redis_lrange (key : str) : M (list str) :=
  command (fun d =>
    match d !! key with
    | None => (Ok [], d)
    | Some (VList l) => (Ok l, d)
    | Some (VString _) => (Raise WRONGTYPE, d)
    end).

(** [DEL key]: the number of keys removed. *)
Definition redis_delete (key : str) : M nat :=
  command (fun d =>
    (Ok (match d !! key with Some _ => 1%nat | None => 0%nat end), delete key d)).

(** [EXISTS key]: the number of keys found, whatever they hold. *)
Definition redis_exists (key : str) : M nat :=
  command (fun d =>
    (Ok (match d !! key with Some _ => 1%nat | None => 0%nat end), d)).

(** The key [f"chat:{chat_id}"] of a conversation log. *)
Definition chat_key (chat_id : str) : str := lit "chat:" ++ chat_id.

Module RedisService.

Definition set_value (key value : str) : M bool :=
  result ← redis_set key value;
  ret (eqb result true).

Definition get_value (key : str) : M (option str) := redis_get key.

Definition store_message (chat_id message : str) : M unit :=
  _ ← redis_rpush (chat_key chat_id) message; ret tt.

Definition get_messages (chat_id : str) : M (list str) :=
  redis_lrange (chat_key chat_id).

Definition delete_key (key : str) : M unit :=
  _ ← redis_delete key; ret tt.

Definition check_redis_key (chat_id : str) : M bool :=
  n ← redis_exists (chat_key chat_id);
  ret (Nat.eqb n 1).

Definition delete_chat (chat_id : str) : M unit :=
  _ ← redis_delete (chat_key chat_id); ret tt.

End RedisService.

(** ** Python dictionaries with string keys, as the service builds them *)

Abbreviation dict := (list (str * json)).

Fixpoint str_eqb (a b : str) : bool :=
  match a, b with
  | [], [] => true
  | x :: a', y :: b' => (x =? y) && str_eqb a' b'
  | _, _ => false
  end.

(** [d[k]]: a key written twice keeps its last value. *)
Fixpoint dict_get (k : str) (d : dict) : option json :=
  match d with
  | [] => None
  | (k', v) :: d' =>
    match dict_get k d' with
    | Some x => Some x
    | None => if str_eqb k k' then Some v else None
    end
  end.

(** [v[k]] on a decoded value *)
Definition getitem (v : json) (k : str) : result json :=
  match v with
  | JObj pairs =>
    match dict_get k pairs with
    | Some x => Ok x
    | None => Raise (KeyError k)
    end
  | _ => Raise (TypeError v)
  end.

Definition loads (m : str) : result json :=
  match json_loads m with
  | Some v => Ok v
  | None => Raise (JSONDecodeError m)
  end.

(** [{"role": role, "text": text}] *)
Definition message (role text : str) : dict :=
  [(lit "role", JStr role); (lit "text", JStr text)].

(** The stored form of the user's message, line 49. *)
Definition user_message (query : str) : str :=
  json_dumps (JObj (message (lit "user") query)).

(** The stored form of the assistant's message, lines 66 and 67. *)
Definition assistant_message (reply : str) : str :=
  json_dumps (JObj (message (lit "assistant") reply)).

Record Turn := { role : str; text : str }.

(** ** ChatServiceProvider *)

Module ChatServiceProvider.
Section Service.
Context `{RT : Runtime}.

Definition system_prompt_key_prefix : str := lit "system_prompt".

(** [f"{self.system_prompt_key_prefix}:{client_id}"] *)
Definition prompt_key (client_id : str) : str :=
  system_prompt_key_prefix ++ lit ":" ++ client_id.

Definition set_system_prompt (client_id prompt : str) : M bool :=
  try_except
    (let key := prompt_key client_id in
     _ ← RedisService.set_value key prompt;
     ret true)
    (fun e => ret false).

Definition get_system_prompt (client_id : str) : M (option str) :=
  let key := prompt_key client_id in
  RedisService.get_value key.

(** [{x}] in an f-string *)
Definition format_value (v : json) : str :=
  match v with
  | JStr s => s
  | _ => value_str v
  end.

(** [f"{json.loads(m)['role']}: {json.loads(m)['text']}"] *)
Definition format_message (m : str) : result str :=
  rbind (loads m) (fun v1 =>
  rbind (getitem v1 (lit "role")) (fun r =>
  rbind (loads m) (fun v2 =>
  rbind (getitem v2 (lit "text")) (fun t =>
  Ok (format_value r ++ lit ": " ++ format_value t))))).

(** The two reads the formatter makes of a stored message, as a [Turn]. *)
Definition decode_turn (m : str) : result Turn :=
  rbind (loads m) (fun v1 =>
  rbind (getitem v1 (lit "role")) (fun r =>
  rbind (loads m) (fun v2 =>
  rbind (getitem v2 (lit "text")) (fun t =>
  Ok {| role := format_value r; text := format_value t |})))).


(** Truthiness of [system_msg]: a dictionary, or nothing. *)
Definition dict_truthy (d : option dict) : bool :=
  match d with
  | Some (_ :: _) => true
  | _ => false
  end.

(** Lines 53 to 61 of [chat]: the text for the model. *)
Definition assemble (system_msg : option dict) (history : list str) (query : str)
  : result str :=
  let formatted_history : str := [] in
  rbind (if dict_truthy system_msg
         then rbind (getitem (JObj (default [] system_msg)) (lit "text")) (fun t =>
              Ok (formatted_history ++ lit "system: " ++ format_value t ++ LF))
         else Ok formatted_history) (fun formatted_history =>
  rbind (rmap format_message history) (fun lines =>
  let formatted_history := formatted_history ++ join LF lines in
  Ok (formatted_history ++ LF ++ lit "user: " ++ query))).

Definition invoke (prompt : str) : M str := fun w =>
  (llm_invoke prompt, World (db w) (faults w) (sent w ++ [prompt])).

Definition not_registered : exn :=
  HTTPException 403 (lit "Client not registered or unauthorized.").

(** [f"{user_id}:{client_id}"] *)
Definition chat_id (user_id client_id : str) : str :=
  user_id ++ lit ":" ++ client_id.

(** The body of the [try] of [chat]. *)
Definition chat_body (user_id client_id query : str) : M str :=
  let chat_id := chat_id user_id client_id in
  system_prompt ← get_system_prompt client_id;
  system_msg ← match system_prompt with
                | Some p => if truthy p then ret (message (lit "system") p)
                            else raise not_registered
                | None => raise not_registered
                end;
  let user_msg := message (lit "user") query in
  _ ← RedisService.store_message chat_id (json_dumps (JObj user_msg));
  history ← RedisService.get_messages chat_id;
  prompt ← lift (assemble (Some system_msg) history query);
  reply ← invoke prompt;
  let bot_msg := message (lit "assistant") reply in
  _ ← RedisService.store_message chat_id (json_dumps (JObj bot_msg));
  ret reply.

Definition chat (user_id client_id query : str) : M str :=
  try_except (chat_body user_id client_id query)
    (fun e => ret (lit "Error occurred: " ++ exn_str e)).

(** The route [POST /chat] of [app/routes/chat.py]: the body of the answer. *)
Definition chat_route (query userid clientid : str) : M dict :=
  response ← chat userid clientid query;
  ret [(lit "reply", JStr response)].

(** The same body up to the assembled text, lines 37 to 61: what a call
    has done when it reaches the model. *)
Definition prepare (user_id client_id query : str) : M str :=
  let chat_id := chat_id user_id client_id in
  system_prompt ← get_system_prompt client_id;
  system_msg ← match system_prompt with
                | Some p => if truthy p then ret (message (lit "system") p)
                            else raise not_registered
                | None => raise not_registered
                end;
  let user_msg := message (lit "user") query in
  _ ← RedisService.store_message chat_id (json_dumps (JObj user_msg));
  history ← RedisService.get_messages chat_id;
  lift (assemble (Some system_msg) history query).

(** The body up to [reply = response.content], lines 37 to 64. *)
Definition converse_to_reply (user_id client_id query : str) : M str :=
  prompt ← prepare user_id client_id query;
  invoke prompt.

(** Line 67: the append of the assistant's message. *)
Definition append_assistant (user_id client_id reply : str) : M unit :=
  RedisService.store_message (chat_id user_id client_id)
    (json_dumps (JObj (message (lit "assistant") reply))).

(** The stored log of a session, decoded the way the formatter reads it. *)
Definition get_history (chat_id : str) : M (list Turn) :=
  messages ← RedisService.get_messages chat_id;
  lift (rmap decode_turn messages).

End Service.
End ChatServiceProvider.

(** ** [app/dependencies.py] *)

Module Dependencies.

Definition forbidden : exn :=
  HTTPException 403 (lit "Invalid or missing secret key.").

Definition verify_secret (SECRET_KEY x_secret_key : str) : result bool :=
  if negb (str_eqb x_secret_key SECRET_KEY) then Raise forbidden
  else Ok true.

(** A route declared with [dependencies=[Depends(verify_secret)]]: the
    dependency runs first, and the endpoint only when it has not raised. *)
Definition depends {A} (SECRET_KEY x_secret_key : str) (endpoint : M A) : M A :=
  _ ← lift (verify_secret SECRET_KEY x_secret_key);
  endpoint.

End Dependencies.

(** ** [app/routes/chat.py]: the two routes of the prompt *)

(** [x is not None], on a value that may be [None]. *)
Definition is_not_None {A} (x : option A) : bool :=
  match x with
  | Some _ => true
  | None => false
  end.

(** [if prompt:] on an [Optional[str]]. *)
Definition truthy_opt (prompt : option str) : bool :=
  match prompt with
  | Some p => truthy p
  | None => false
  end.

Module Routes.

Definition prompt_body (clientid system_prompt : str) : dict :=
  [(lit "clientid", JStr clientid); (lit "system_prompt", JStr system_prompt)].

Definition set_failed : exn :=
  HTTPException 500 (lit "Error occurred while setting your system prompt").

Definition not_found : exn := HTTPException 404 (lit "Client not registered").

(** [success] is the boolean of [ChatServiceProvider.set_system_prompt]: a
    value, never [None]. *)
Definition set_system_prompt (clientid system_prompt : str) : M dict :=
  success ← ChatServiceProvider.set_system_prompt clientid system_prompt;
  if is_not_None (Some success) then ret (prompt_body clientid system_prompt)
  else raise set_failed.

Definition get_system_prompt (clientid : str) : M dict :=
  prompt ← ChatServiceProvider.get_system_prompt clientid;
  if truthy_opt prompt then ret (prompt_body clientid (default [] prompt))
  else raise not_found.

(** The two routes behind their dependency. *)
Definition set_prompt_endpoint (SECRET_KEY x_secret_key clientid system_prompt : str)
  : M dict :=
  Dependencies.depends SECRET_KEY x_secret_key (set_system_prompt clientid system_prompt).

Definition get_prompt_endpoint (SECRET_KEY x_secret_key clientid : str) : M dict :=
  Dependencies.depends SECRET_KEY x_secret_key (get_system_prompt clientid).

End Routes.

(** ** [app/__init__.py] and the check of [app/dependencies.py] at import *)

Module App.

(** A setting is the string of the environment or the integer of a default. *)
Inductive setting :=
| SStr (s : str)
| SInt (n : Z).

(** [os.getenv(name, default)] on the environment left by [load_dotenv]. *)
Definition getenv (env : gmap str str) (name : str) (default : option setting)
  : option setting :=
  match env !! name with
  | Some v => Some (SStr v)
  | None => default
  end.

Record settings := Settings {
  GROQ_API_KEY : option setting;
  SECRET_KEY : option setting;
  REDIS_HOST : option setting;
  REDIS_PORT : option setting;
  REDIS_USERNAME : option setting;
  REDIS_PASSWORD : option setting;
  HOST : option setting;
  PORT : option setting;
}.

Definition read_settings (env : gmap str str) : settings :=
  {| GROQ_API_KEY := getenv env (lit "GROQ_API_KEY") None;
     SECRET_KEY := getenv env (lit "SECRET_KEY") None;
     REDIS_HOST := getenv env (lit "REDIS_HOST") (Some (SStr (lit "localhost")));
     REDIS_PORT := getenv env (lit "REDIS_PORT") (Some (SInt 6379));
     REDIS_USERNAME := getenv env (lit "REDIS_USERNAME") (Some (SStr (lit "default")));
     REDIS_PASSWORD := getenv env (lit "REDIS_PASSWORD") None;
     HOST := getenv env (lit "HOST") (Some (SStr (lit "0.0.0.0")));
     PORT := getenv env (lit "PORT") (Some (SInt 8000)) |}.

Inductive import_error :=
| ImportHTTPException (status_code : Z) (detail : str)
| RuntimeError (message : str).

Definition missing_credentials : import_error :=
  ImportHTTPException 401 (lit "Credentionals are missing").

Definition missing_secret : import_error :=
  RuntimeError (lit "SECRET_KEY not found in environment variables!").

(** [for cred in mandatory: if cred is None: raise ...] *)
Fixpoint check_mandatory (mandatory : list (option setting)) : option import_error :=
  match mandatory with
  | [] => None
  | cred :: rest =>
    match cred with
    | None => Some missing_credentials
    | Some _ => check_mandatory rest
    end
  end.

(** [not SECRET_KEY]: unset, or the empty string. *)
Definition not_setting (x : option setting) : bool :=
  match x with
  | None => true
  | Some (SStr s) => negb (truthy s)
  | Some (SInt n) => n =? 0
  end.

(** The import of the package, then of [app.dependencies]: the settings, or
    the first error raised. *)
Definition import_app (env : gmap str str) : settings + import_error :=
  let s := read_settings env in
  let mandatory := [GROQ_API_KEY s; REDIS_HOST s; REDIS_PORT s; REDIS_PASSWORD s] in
  match check_mandatory mandatory with
  | Some e => inr e
  | None => if not_setting (SECRET_KEY s) then inr missing_secret else inl s
  end.

End App.

(** The list a key of the store holds, empty when the key is not there. *)
Definition log_of (d : gmap str value) (chat_id : str) : list str :=
  match d !! chat_key chat_id with
  | Some (VList l) => l
  | _ => []
  end.

(** The store after messages have been appended to the log of a session. *)
Definition appended (d : gmap str value) (chat_id : str) (new : list str)
  : gmap str value :=
  <[chat_key chat_id := VList (log_of d chat_id ++ new)]> d.

(** A printable ASCII character. *)
Definition printable (c : Z) : Prop := 32 <= c <= 126.

(** The first [n] commands to come are not made to fail. *)
Fixpoint healthy (n : nat) (fs : list (option exn)) : Prop :=
  match n with
  | O => True
  | S n' => match fs with
            | Some _ :: _ => False
            | _ => healthy n' (tail fs)
            end
  end.

(** ** The assembler as the specification words it

    One line per part, joined by a newline: the system line when a prompt is
    present, one line ["<role>: <text>"] per turn of the history, and the
    final line of the new query. *)
Definition turn_line (t : Turn) : str := role t ++ lit ": " ++ text t.

Definition assemble_spec (system_prompt : option str) (history : list Turn)
  (new_query : str) : str :=
  join LF (match system_prompt with
           | Some p => [lit "system: " ++ p]
           | None => []
           end ++ map turn_line history ++ [lit "user: " ++ new_query]).

(** ** A runtime for the examples

    [str(e)] as Starlette and the client libraries print their exceptions,
    and a model given as a function. *)
Definition example_exn_str (e : exn) : str :=
  match e with
  | HTTPException code detail => lit (pretty code) ++ lit ": " ++ detail
  | RedisError m => m
  | JSONDecodeError _ => lit "Expecting value"
  | KeyError k => 39 :: k ++ [39]
  | TypeError _ => lit "object is not subscriptable"
  | ModelError m => m
  end.

Definition example_runtime (model : str -> result str) : Runtime :=
  {| llm_invoke := model; exn_str := example_exn_str; value_str := json_dumps |}.

Definition empty_world : world := World ∅ [] [].

(** A model that answers 4 to everything. *)
Definition model_four : str -> result str := fun _ => Ok (lit "4").

Definition runtime_four : Runtime := example_runtime model_four.

(** A model whose call fails. *)
Definition model_down : str -> result str :=
  fun _ => Raise (ModelError (lit "rate limit exceeded")).

Definition runtime_down : Runtime := example_runtime model_down.

(** A store whose fourth command fails: the append of the assistant's
    message, after the three commands that come before the model. *)
Definition fourth_fails : list (option exn) :=
  [None; None; None; Some (RedisError (lit "Connection refused"))].

(** Client 15 registered with a prompt, every session untouched. *)
Definition registered_world (fs : list (option exn)) : world :=
  World {[ lit "system_prompt:15" := VString (lit "You are helpful.") ]} fs [].

(** Session 12:15 with one stored message, no client registered. *)
Definition logged_world : world :=
  World {[ lit "chat:12:15" := VList [user_message (lit "hello")] ]} [] [].

(** Client 15 registered, and a record in the log of session 12:15 that is
    no JSON text. *)
Definition unreadable_world : world :=
  World (<[ lit "chat:12:15" := VList [lit "not a record"] ]>
           {[ lit "system_prompt:15" := VString (lit "You are helpful.") ]}) [] [].

Import ChatServiceProvider.

(** * Properties *)

(** ** Hexadecimal digits and surrogate pairs *)

Ltac divmod := Z.div_mod_to_equations; lia.

Lemma hex_value_digit d : 0 <= d < 16 -> hex_value (hex_digit d) = Some d.
Proof.
  intros Hd.
  assert (Hcases : d = 0 \/ d = 1 \/ d = 2 \/ d = 3 \/ d = 4 \/ d = 5 \/ d = 6
                   \/ d = 7 \/ d = 8 \/ d = 9 \/ d = 10 \/ d = 11 \/ d = 12
                   \/ d = 13 \/ d = 14 \/ d = 15) by lia.
  repeat (destruct Hcases as [-> | Hcases]; [reflexivity |]).
  subst d. reflexivity.
Qed.

Lemma hex4_value_hex4 n :
  0 <= n < 65536 ->
  hex4_value (hex_digit (n / 4096 mod 16)) (hex_digit (n / 256 mod 16))
             (hex_digit (n / 16 mod 16)) (hex_digit (n mod 16)) = Some n.
Proof.
  intros Hn. unfold hex4_value.
  rewrite !hex_value_digit by (apply Z.mod_pos_bound; lia).
  f_equal. divmod.
Qed.

Lemma lor_disjoint a b : 0 <= b < 1024 -> Z.lor (a * 1024) b = a * 1024 + b.
Proof.
  intros Hb.
  assert (Hland : Z.land (a * 1024) b = 0).
  { apply Z.bits_inj'. intros i Hi. rewrite Z.land_spec, Z.bits_0.
    destruct (Z.ltb_spec i 10) as [Hlt | Hge].
    - change 1024 with (2 ^ 10). rewrite Z.mul_pow2_bits_low by lia. reflexivity.
    - replace b with (b mod 2 ^ 10) by (apply Z.mod_small; change (2 ^ 10) with 1024; lia).
      rewrite Z.mod_pow2_bits_high by lia. apply andb_false_r. }
  pose proof (Z.add_lor_land (a * 1024) b) as Hadd. lia.
Qed.

Lemma high_surrogate_value n :
  0 <= n < 1048576 ->
  Z.lor 55296 (Z.land (Z.shiftr n 10) 1023) = 55296 + n / 1024.
Proof.
  intros Hn.
  change 1023 with (Z.ones 10). rewrite Z.land_ones, Z.shiftr_div_pow2 by lia.
  change (2 ^ 10) with 1024.
  rewrite (Z.mod_small (n / 1024)) by divmod.
  change 55296 with (54 * 1024). apply lor_disjoint. divmod.
Qed.

Lemma low_surrogate_value n :
  Z.lor 56320 (Z.land n 1023) = 56320 + n mod 1024.
Proof.
  change 1023 with (Z.ones 10). rewrite Z.land_ones by lia.
  change (2 ^ 10) with 1024.
  change 56320 with (55 * 1024). apply lor_disjoint.
  apply Z.mod_pos_bound. lia.
Qed.

Lemma join_surrogates_split n :
  0 <= n < 1048576 ->
  join_surrogates (55296 + n / 1024) (56320 + n mod 1024) = 65536 + n.
Proof.
  intros Hn. unfold join_surrogates.
  rewrite Z.shiftl_mul_pow2 by lia. change (2 ^ 10) with 1024.
  replace (55296 + n / 1024 - 55296) with (n / 1024) by lia.
  replace (56320 + n mod 1024 - 56320) with (n mod 1024) by lia.
  rewrite lor_disjoint by (apply Z.mod_pos_bound; lia).
  divmod.
Qed.

(** ** Decoding what the encoder wrote *)

Lemma scanstring_plain c s :
  c <> 34 -> c <> 92 -> 32 <= c -> scanstring (c :: s) = push c (scanstring s).
Proof.
  intros H34 H92 H32. simpl.
  destruct (Z.eqb_spec c 34); [contradiction |].
  destruct (Z.eqb_spec c 92); [contradiction |].
  destruct (Z.ltb_spec c 32); [lia | reflexivity].
Qed.

Lemma scanstring_u_unfold h1 h2 h3 h4 r2 :
  scanstring (92 :: 117 :: h1 :: h2 :: h3 :: h4 :: r2) =
  match hex4_value h1 h2 h3 h4 with
  | None => None
  | Some uni =>
    if is_high uni then
      match r2 with
      | b :: u :: r3 =>
        if (b =? 92) && (u =? 117) then
          match r3 with
          | l1 :: l2 :: l3 :: l4 :: r4 =>
            match hex4_value l1 l2 l3 l4 with
            | None => None
            | Some uni2 =>
              if is_low uni2
              then push (join_surrogates uni uni2) (scanstring r4)
              else push uni (scanstring r2)
            end
          | _ => None
          end
        else push uni (scanstring r2)
      | _ => push uni (scanstring r2)
      end
    else push uni (scanstring r2)
  end.
Proof. reflexivity. Qed.

Lemma scanstring_u_escape n s :
  0 <= n < 65536 -> is_high n = false ->
  scanstring (u_escape n ++ s) = push n (scanstring s).
Proof.
  intros Hn Hhigh. unfold u_escape, hex4.
  change (scanstring (92 :: 117 :: hex_digit (n / 4096 mod 16)
            :: hex_digit (n / 256 mod 16) :: hex_digit (n / 16 mod 16)
            :: hex_digit (n mod 16) :: s) = push n (scanstring s)).
  rewrite scanstring_u_unfold, hex4_value_hex4, Hhigh by exact Hn.
  reflexivity.
Qed.

Lemma scanstring_pair hi lo s :
  0 <= hi < 65536 -> 0 <= lo < 65536 -> is_high hi = true -> is_low lo = true ->
  scanstring (u_escape hi ++ u_escape lo ++ s)
  = push (join_surrogates hi lo) (scanstring s).
Proof.
  intros Hhi Hlo Hhigh Hlow. unfold u_escape, hex4.
  change (scanstring (92 :: 117 :: hex_digit (hi / 4096 mod 16)
            :: hex_digit (hi / 256 mod 16) :: hex_digit (hi / 16 mod 16)
            :: hex_digit (hi mod 16)
            :: 92 :: 117 :: hex_digit (lo / 4096 mod 16)
            :: hex_digit (lo / 256 mod 16) :: hex_digit (lo / 16 mod 16)
            :: hex_digit (lo mod 16) :: s)
          = push (join_surrogates hi lo) (scanstring s)).
  rewrite scanstring_u_unfold, hex4_value_hex4, Hhigh by exact Hhi.
  change ((92 =? 92) && (117 =? 117)) with true. cbv iota.
  rewrite hex4_value_hex4, Hlow by exact Hlo.
  reflexivity.
Qed.

Lemma scanstring_escape_char c s :
  scalar c -> scanstring (escape_char c ++ s) = push c (scanstring s).
Proof.
  intros Hc. unfold escape_char.
  destruct (Z.eqb_spec c 92) as [-> | H92]; [reflexivity |].
  destruct (Z.eqb_spec c 34) as [-> | H34]; [reflexivity |].
  destruct (Z.eqb_spec c 8) as [-> | H8]; [reflexivity |].
  destruct (Z.eqb_spec c 12) as [-> | H12]; [reflexivity |].
  destruct (Z.eqb_spec c 10) as [-> | H10]; [reflexivity |].
  destruct (Z.eqb_spec c 13) as [-> | H13]; [reflexivity |].
  destruct (Z.eqb_spec c 9) as [-> | H9]; [reflexivity |].
  destruct (Z.leb_spec 32 c) as [Hge | Hlt]; cbn [andb].
  - destruct (Z.leb_spec c 126) as [Hle | Hgt].
    + apply scanstring_plain; lia.
    + destruct (Z.ltb_spec c 65536) as [Hbmp | Hastral].
      * apply scanstring_u_escape; [unfold scalar in Hc; lia |].
        unfold is_high, scalar in *.
        destruct (Z.leb_spec 55296 c), (Z.leb_spec c 56319); try reflexivity; lia.
      * cbv zeta. unfold scalar in Hc.
        rewrite high_surrogate_value, low_surrogate_value by lia.
        rewrite <- app_assoc.
        rewrite scanstring_pair.
        -- rewrite join_surrogates_split by lia. f_equal. lia.
        -- divmod.
        -- divmod.
        -- unfold is_high.
           destruct (Z.leb_spec 55296 (55296 + (c - 65536) / 1024)),
                    (Z.leb_spec (55296 + (c - 65536) / 1024) 56319);
             try reflexivity; divmod.
        -- unfold is_low.
           destruct (Z.leb_spec 56320 (56320 + (c - 65536) mod 1024)),
                    (Z.leb_spec (56320 + (c - 65536) mod 1024) 57343);
             try reflexivity; divmod.
  - destruct (Z.ltb_spec c 65536) as [Hbmp | Hastral]; [| lia].
    apply scanstring_u_escape; [unfold scalar in Hc; lia |].
    unfold is_high. destruct (Z.leb_spec 55296 c); [lia | reflexivity].
Qed.

Lemma scanstring_escape s rest :
  unicode_text s -> scanstring (escape s ++ 34 :: rest) = Some (s, rest).
Proof.
  induction 1 as [| c s Hc Hs IH]; [reflexivity |].
  cbn [escape]. rewrite <- app_assoc, scanstring_escape_char, IH by exact Hc.
  reflexivity.
Qed.

(** Literals of the source, evaluated to their code points. *)
Ltac eval_lits :=
  repeat match goal with
         | |- context [lit ?s] =>
             let v := eval vm_compute in (lit s) in change (lit s) with v
         end.

Ltac norm_app := repeat (cbn [app]; rewrite <- ?app_assoc).

Ltac step_ws := cbn [skip_ws is_ws Z.eqb Pos.eqb orb].

Lemma scan_once_quote n r :
  scan_once (S n) (34 :: r)
  = match scanstring r with
    | Some (x, r') => Some (JStr x, r')
    | None => None
    end.
Proof. reflexivity. Qed.

Lemma scan_once_brace n r :
  scan_once (S n) (123 :: 34 :: r)
  = match members n r with
    | Some (m, r2) => Some (JObj m, r2)
    | None => None
    end.
Proof. reflexivity. Qed.

Lemma members_unfold n s :
  members (S n) s =
  match scanstring s with
  | None => None
  | Some (key, r) =>
    match skip_ws r with
    | c :: r1 =>
      if c =? 58 then
        match scan_once n (skip_ws r1) with
        | None => None
        | Some (v, r2) =>
          match skip_ws r2 with
          | d :: r3 =>
            if d =? 125 then Some ([(key, v)], r3)
            else if d =? 44 then
              match skip_ws r3 with
              | q :: r4 =>
                if q =? 34 then
                  match members n r4 with
                  | Some (m, r5) => Some ((key, v) :: m, r5)
                  | None => None
                  end
                else None
              | [] => None
              end
            else None
          | [] => None
          end
        end
      else None
    | [] => None
    end
  end.
Proof. reflexivity. Qed.

(** One member ["key": "value"] as [json.dumps] writes it, read back. *)
Lemma members_string_pair n k v rest :
  unicode_text k -> unicode_text v ->
  members (S (S n)) (escape k ++ 34 :: 58 :: 32 :: 34 :: escape v ++ 34 :: rest)
  = match skip_ws rest with
    | d :: r3 =>
      if d =? 125 then Some ([(k, JStr v)], r3)
      else if d =? 44 then
        match skip_ws r3 with
        | q :: r4 =>
          if q =? 34 then
            match members (S n) r4 with
            | Some (m, r5) => Some ((k, JStr v) :: m, r5)
            | None => None
            end
          else None
        | [] => None
        end
      else None
    | [] => None
    end.
Proof.
  intros Hk Hv.
  rewrite members_unfold, scanstring_escape by exact Hk.
  step_ws. rewrite scan_once_quote, scanstring_escape by exact Hv.
  reflexivity.
Qed.

Lemma unicode_text_lit s :
  forallb (fun c => (0 <=? c) && (c <? 55296)) (lit s) = true -> unicode_text (lit s).
Proof.
  unfold unicode_text. induction (lit s) as [| c l IH]; cbn [forallb]; intros Hall.
  - constructor.
  - apply andb_prop in Hall as [Hc Hl]. constructor; [| exact (IH Hl)].
    apply andb_prop in Hc as [H0 H1].
    apply Z.leb_le in H0. apply Z.ltb_lt in H1. unfold scalar. lia.
Qed.

Lemma dumps_message r t :
  json_dumps (JObj (message r t))
  = 123 :: 34 :: escape (lit "role") ++ 34 :: 58 :: 32 :: 34 :: escape r
      ++ 34 :: 44 :: 32 :: 34 :: escape (lit "text") ++ 34 :: 58 :: 32 :: 34 :: escape t
      ++ [34; 125].
Proof.
  unfold message. cbn [json_dumps map join fst snd].
  unfold encode_basestring_ascii.
  change (lit ", ") with [44; 32]. change (lit ": ") with [58; 32].
  norm_app. reflexivity.
Qed.

Lemma scan_once_message n r t rest :
  unicode_text r -> unicode_text t ->
  scan_once (S (S (S (S n)))) (json_dumps (JObj (message r t)) ++ rest)
  = Some (JObj (message r t), rest).
Proof.
  intros Hr Ht. rewrite dumps_message. norm_app.
  rewrite scan_once_brace.
  rewrite members_string_pair by (exact Hr || (apply unicode_text_lit; reflexivity)).
  step_ws.
  rewrite members_string_pair by (exact Ht || (apply unicode_text_lit; reflexivity)).
  reflexivity.
Qed.

Lemma loads_dumps_message r t :
  unicode_text r -> unicode_text t ->
  json_loads (json_dumps (JObj (message r t))) = Some (JObj (message r t)).
Proof.
  intros Hr Ht. unfold json_loads.
  assert (Hws : skip_ws (json_dumps (JObj (message r t)))
                = json_dumps (JObj (message r t)) ++ []).
  { rewrite app_nil_r, dumps_message. reflexivity. }
  assert (Hlen : exists n, length (json_dumps (JObj (message r t)))
                           = S (S (S n))).
  { rewrite dumps_message. cbn [length]. eauto. }
  destruct Hlen as [n ->]. rewrite Hws, scan_once_message by assumption.
  reflexivity.
Qed.

(** Outside Unicode text the decoder is not an inverse of the encoder: a
    high surrogate followed by a low one, written as two escapes, is read
    back as the one code point they encode. *)
Remark surrogate_pair_joined :
  json_loads (json_dumps (JStr [55357; 56832])) = Some (JStr [128512]).
Proof. vm_compute. reflexivity. Qed.

(** *** Examples *)

Example loads_demo :
  json_loads (lit "{" ++ quoted "role" ++ lit ": " ++ quoted "user" ++ lit ", "
                ++ quoted "n" ++ lit " : [1, -2.5e3 ,null], "
                ++ quoted "t" ++ lit ":" ++ quoted "a\u00e9\n\ud83d\ude00" ++ lit "} ")
  = Some (JObj [(lit "role", JStr (lit "user"));
                (lit "n", JArr [JNum (lit "1"); JNum (lit "-2.5e3"); JNull]);
                (lit "t", JStr [97; 233; 10; 128512])]).
Proof. vm_compute. reflexivity. Qed.

Example loads_nested :
  json_loads (lit "[[[[]]]]") = Some (JArr [JArr [JArr [JArr []]]]).
Proof. vm_compute. reflexivity. Qed.

Example loads_rejects_trailing_comma : json_loads (lit "[1,]") = None.
Proof. vm_compute. reflexivity. Qed.

(** A stored record without its text is an error of the read, not a turn
    that is skipped. *)
Example decode_turn_missing_text :
  decode_turn (RT := runtime_four) (lit "{" ++ quoted "role" ++ lit ": " ++ quoted "user" ++ lit "}")
  = Raise (KeyError (lit "text")).
Proof. vm_compute. reflexivity. Qed.

Example ex_unregistered :
  (chat (RT := example_runtime (fun _ => Ok (lit "4"))) (lit "12") (lit "15") (lit "hi") empty_world).1
  = Ok (lit "Error occurred: 403: Client not registered or unauthorized.").
Proof. vm_compute. reflexivity. Qed.

(** ** Running the store *)

Lemma bind_run {A B} (m : M A) (k : A -> M B) w :
  (m ≫= k) w = match m w with
               | (Ok a, w') => k a w'
               | (Raise e, w') => (Raise e, w')
               end.
Proof. reflexivity. Qed.

Lemma bind_ok {A B} (m : M A) (k : A -> M B) w b w' :
  (m ≫= k) w = (Ok b, w') ->
  exists a w1, m w = (Ok a, w1) /\ k a w1 = (Ok b, w').
Proof.
  rewrite bind_run. destruct (m w) as [[a | e] w1]; [eauto | discriminate].
Qed.

Lemma healthy_tail n fs : healthy (S n) fs -> healthy n (tail fs).
Proof. cbn. destruct fs as [| [e |] rest]; tauto. Qed.

Lemma healthy_S n fs : healthy (S n) fs -> healthy 1 fs.
Proof. cbn. destruct fs as [| [e |] rest]; tauto. Qed.

Lemma command_run {A} (run : gmap str value -> result A * gmap str value) w :
  healthy 1 (faults w) ->
  command run w = ((run (db w)).1, World (run (db w)).2 (tail (faults w)) (sent w)).
Proof.
  unfold command. cbn.
  destruct (faults w) as [| [e |] rest]; [| tauto |]; intros _;
    destruct (run (db w)); reflexivity.
Qed.

Lemma command_sent {A} (run : gmap str value -> result A * gmap str value) w :
  sent (command run w).2 = sent w.
Proof.
  unfold command.
  destruct (faults w) as [| [e |] rest]; try destruct (run (db w)); reflexivity.
Qed.

Lemma command_ok {A} (run : gmap str value -> result A * gmap str value) w a w' :
  command run w = (Ok a, w') ->
  run (db w) = (Ok a, db w') /\ w' = World (db w') (tail (faults w)) (sent w).
Proof.
  unfold command.
  destruct (faults w) as [| [e |] rest]; try discriminate;
    destruct (run (db w)) as [r d]; intros [= -> <-]; auto.
Qed.

Section StoreRuns.
Import RedisService.

Lemma get_value_run key w :
  healthy 1 (faults w) ->
  get_value key w
  = (match db w !! key with
     | None => Ok None
     | Some (VString s) => Ok (Some s)
     | Some (VList _) => Raise WRONGTYPE
     end, World (db w) (tail (faults w)) (sent w)).
Proof.
  intros Hh. unfold get_value, redis_get. rewrite command_run by exact Hh.
  destruct (db w !! key) as [[s | l] |]; reflexivity.
Qed.

Lemma get_value_db key w : db (get_value key w).2 = db w.
Proof.
  unfold get_value, redis_get, command.
  destruct (faults w) as [| [e |] rest]; try reflexivity;
    destruct (db w !! key) as [[s | l] |]; reflexivity.
Qed.

Lemma set_value_run key v w :
  healthy 1 (faults w) ->
  set_value key v w
  = (Ok true, World (<[key := VString v]> (db w)) (tail (faults w)) (sent w)).
Proof.
  intros Hh. unfold set_value, redis_set. rewrite bind_run, command_run by exact Hh.
  reflexivity.
Qed.

Lemma set_value_ok key v w b w' :
  set_value key v w = (Ok b, w') ->
  w' = World (<[key := VString v]> (db w)) (tail (faults w)) (sent w).
Proof.
  unfold set_value. intros Hrun. apply bind_ok in Hrun as (a & w1 & Hset & Hret).
  apply command_ok in Hset as [[= _ Hdb] Hw]. injection Hret as _ <-.
  rewrite Hw, <- Hdb. reflexivity.
Qed.

Lemma store_message_ok chat_id m w u w' :
  store_message chat_id m w = (Ok u, w') ->
  (forall s, db w !! chat_key chat_id <> Some (VString s)) /\
  w' = World (<[chat_key chat_id := VList (log_of (db w) chat_id ++ [m])]> (db w))
             (tail (faults w)) (sent w).
Proof.
  unfold store_message. intros Hrun.
  apply bind_ok in Hrun as (a & w1 & Hpush & Hret).
  apply command_ok in Hpush as [Hpush Hw]. injection Hret as _ <-.
  rewrite Hw. unfold log_of.
  destruct (db w !! chat_key chat_id) as [[s | l] |];
    try discriminate; injection Hpush as _ <-;
    (split; [intros s'; discriminate | reflexivity]).
Qed.

Lemma store_message_run chat_id m w :
  healthy 1 (faults w) ->
  (forall s, db w !! chat_key chat_id <> Some (VString s)) ->
  store_message chat_id m w
  = (Ok tt, World (<[chat_key chat_id := VList (log_of (db w) chat_id ++ [m])]> (db w))
                  (tail (faults w)) (sent w)).
Proof.
  intros Hh Hlist. unfold store_message, redis_rpush.
  rewrite bind_run, command_run by exact Hh. unfold log_of.
  destruct (db w !! chat_key chat_id) as [[s | l] |]; try reflexivity.
  exfalso. exact (Hlist s eq_refl).
Qed.

Lemma store_message_fault chat_id m w e rest :
  faults w = Some e :: rest ->
  store_message chat_id m w = (Raise e, World (db w) rest (sent w)).
Proof.
  intros Hf. unfold store_message, redis_rpush. rewrite bind_run.
  unfold command. rewrite Hf. reflexivity.
Qed.

Lemma get_messages_ok chat_id w l w' :
  get_messages chat_id w = (Ok l, w') ->
  l = log_of (db w) chat_id /\ w' = World (db w) (tail (faults w)) (sent w).
Proof.
  unfold get_messages. intros Hrun.
  apply command_ok in Hrun as [Hrange Hw]. rewrite Hw. unfold log_of.
  destruct (db w !! chat_key chat_id) as [[s | l0] |];
    try discriminate; injection Hrange as <- <-; auto.
Qed.

Lemma get_messages_run chat_id w :
  healthy 1 (faults w) ->
  (forall s, db w !! chat_key chat_id <> Some (VString s)) ->
  get_messages chat_id w
  = (Ok (log_of (db w) chat_id), World (db w) (tail (faults w)) (sent w)).
Proof.
  intros Hh Hlist. unfold get_messages, redis_lrange.
  rewrite command_run by exact Hh. unfold log_of.
  destruct (db w !! chat_key chat_id) as [[s | l] |]; try reflexivity.
  exfalso. exact (Hlist s eq_refl).
Qed.

End StoreRuns.

(** The two families of keys never meet. *)
Lemma prompt_key_not_chat_key client_id chat_id :
  prompt_key client_id <> chat_key chat_id.
Proof. discriminate. Qed.

Lemma log_of_insert d chat_id l :
  log_of (<[chat_key chat_id := VList l]> d) chat_id = l.
Proof. unfold log_of. rewrite lookup_insert_eq. reflexivity. Qed.

Lemma log_of_insert_prompt d client_id p chat_id :
  log_of (<[prompt_key client_id := VString p]> d) chat_id = log_of d chat_id.
Proof.
  unfold log_of. rewrite lookup_insert_ne by apply prompt_key_not_chat_key.
  reflexivity.
Qed.

Lemma get_value_ok key w v w' :
  RedisService.get_value key w = (Ok v, w') ->
  db w !! key = VString <$> v /\ w' = World (db w) (tail (faults w)) (sent w).
Proof.
  unfold RedisService.get_value. intros Hrun.
  apply command_ok in Hrun as [Hget Hw]. rewrite Hw.
  destruct (db w !! key) as [[s | l] |];
    try discriminate; injection Hget as <- <-; auto.
Qed.

(** ** Lists of results and joined lines *)

Lemma rmap_snoc {A B} (f : A -> result B) l x :
  rmap f (l ++ [x])
  = rbind (rmap f l) (fun ys => rbind (f x) (fun y => Ok (ys ++ [y]))).
Proof.
  induction l as [| a l IH]; cbn [rmap app rbind].
  - destruct (f x); reflexivity.
  - destruct (f a) as [b | e]; cbn [rbind]; [| reflexivity].
    rewrite IH. destruct (rmap f l) as [ys | e]; cbn [rbind]; [| reflexivity].
    destruct (f x); reflexivity.
Qed.

Lemma join_cons sep p rest :
  rest <> [] -> join sep (p :: rest) = p ++ sep ++ join sep rest.
Proof. destruct rest; [contradiction | reflexivity]. Qed.


Lemma join_app sep l1 l2 :
  l1 <> [] -> l2 <> [] -> join sep (l1 ++ l2) = join sep l1 ++ sep ++ join sep l2.
Proof.
  induction l1 as [| p l1 IH]; [contradiction |]. intros _ Hl2.
  destruct l1 as [| p' l1].
  - cbn [app]. apply join_cons. exact Hl2.
  - change ((p :: p' :: l1) ++ l2) with (p :: ((p' :: l1) ++ l2)).
    rewrite join_cons by (cbn [app]; discriminate).
    rewrite IH by (discriminate || exact Hl2).
    rewrite (join_cons sep p (p' :: _)) by discriminate.
    rewrite <- !app_assoc. reflexivity.
Qed.

(** ** Formatting stored messages *)

Section Formatting.
Context `{RT : Runtime}.

Lemma getitem_role r t : getitem (JObj (message r t)) (lit "role") = Ok (JStr r).
Proof. reflexivity. Qed.

Lemma getitem_text r t : getitem (JObj (message r t)) (lit "text") = Ok (JStr t).
Proof. reflexivity. Qed.

Lemma loads_message r t :
  unicode_text r -> unicode_text t ->
  loads (json_dumps (JObj (message r t))) = Ok (JObj (message r t)).
Proof. intros Hr Ht. unfold loads. rewrite loads_dumps_message; auto. Qed.

Lemma decode_turn_message r t :
  unicode_text r -> unicode_text t ->
  decode_turn (json_dumps (JObj (message r t))) = Ok {| role := r; text := t |}.
Proof.
  intros Hr Ht. unfold decode_turn. rewrite loads_message by assumption.
  reflexivity.
Qed.

Lemma format_message_decode m :
  format_message m = rbind (decode_turn m) (fun t => Ok (turn_line t)).
Proof.
  unfold format_message, decode_turn.
  destruct (loads m) as [v | e]; cbn [rbind]; [| reflexivity].
  destruct (getitem v (lit "role")); cbn [rbind]; [| reflexivity].
  destruct (getitem v (lit "text")); reflexivity.
Qed.

Lemma format_message_message r t :
  unicode_text r -> unicode_text t ->
  format_message (json_dumps (JObj (message r t))) = Ok (r ++ lit ": " ++ t).
Proof.
  intros Hr Ht. rewrite format_message_decode, decode_turn_message by assumption.
  reflexivity.
Qed.

Lemma rmap_format_decode history turns :
  rmap decode_turn history = Ok turns ->
  rmap format_message history = Ok (map turn_line turns).
Proof.
  revert turns. induction history as [| m history IH]; intros turns; cbn [rmap].
  - intros [= <-]. reflexivity.
  - rewrite format_message_decode.
    destruct (decode_turn m) as [t | e]; cbn [rbind]; [| discriminate].
    destruct (rmap decode_turn history) as [ts | e]; cbn [rbind]; [| discriminate].
    intros [= <-]. rewrite (IH ts eq_refl). reflexivity.
Qed.

Lemma assemble_some p history query :
  assemble (Some (message (lit "system") p)) history query
  = rbind (rmap format_message history) (fun lines =>
      Ok (lit "system: " ++ p ++ LF ++ join LF lines ++ LF ++ lit "user: " ++ query)).
Proof.
  unfold assemble. cbn [dict_truthy message default]. 
  change (getitem _ (lit "text")) with (@Ok json (JStr p)).
  cbn [rbind format_value app].
  destruct (rmap format_message history); cbn [rbind]; [| reflexivity].
  rewrite <- !app_assoc. reflexivity.
Qed.

Lemma assemble_none history query :
  assemble None history query
  = rbind (rmap format_message history) (fun lines =>
      Ok (join LF lines ++ LF ++ lit "user: " ++ query)).
Proof. reflexivity. Qed.

End Formatting.

(** ** The chat operation *)

Section Chat.
Context `{RT : Runtime}.

Lemma chat_run user_id client_id query w :
  chat user_id client_id query w
  = match chat_body user_id client_id query w with
    | (Ok reply, w') => (Ok reply, w')
    | (Raise e, w') => (Ok (lit "Error occurred: " ++ exn_str e), w')
    end.
Proof. reflexivity. Qed.

Lemma invoke_run prompt w :
  invoke prompt w = (llm_invoke prompt, World (db w) (faults w) (sent w ++ [prompt])).
Proof. reflexivity. Qed.

Lemma chat_body_split user_id client_id query w :
  chat_body user_id client_id query w
  = match converse_to_reply user_id client_id query w with
    | (Ok reply, w3) =>
      match append_assistant user_id client_id reply w3 with
      | (Ok _, w4) => (Ok reply, w4)
      | (Raise e, w4) => (Raise e, w4)
      end
    | (Raise e, w3) => (Raise e, w3)
    end.
Proof.
  unfold chat_body, converse_to_reply, prepare, append_assistant.
  rewrite !bind_run.
  destruct (get_system_prompt client_id w) as [[sp | e] w1]; [| reflexivity].
  destruct sp as [p |]; [destruct (truthy p) |]; cbv [ret raise]; cbv beta iota;
    try reflexivity.
  rewrite !bind_run.
  destruct (RedisService.store_message _ _ w1) as [[[] | e] w2]; [| reflexivity].
  rewrite !bind_run.
  destruct (RedisService.get_messages _ w2) as [[history | e] w3]; [| reflexivity].
  rewrite !bind_run. unfold lift.
  destruct (assemble _ history query) as [prompt | e]; [| reflexivity].
  rewrite !bind_run, invoke_run.
  destruct (llm_invoke prompt) as [reply | e]; [| reflexivity].
  rewrite !bind_run.
  destruct (RedisService.store_message _ _ _) as [[[] | e] w4]; reflexivity.
Qed.

(** What a call has done when it reaches the model. *)
Lemma prepare_ok user_id client_id query w prompt w2 :
  prepare user_id client_id query w = (Ok prompt, w2) ->
  exists p,
    db w !! prompt_key client_id = Some (VString p) /\ truthy p = true /\
    (forall s, db w !! chat_key (chat_id user_id client_id) <> Some (VString s)) /\
    w2 = World (<[chat_key (chat_id user_id client_id)
                  := VList (log_of (db w) (chat_id user_id client_id)
                              ++ [user_message query])]> (db w))
               (tail (tail (tail (faults w)))) (sent w) /\
    assemble (Some (message (lit "system") p))
             (log_of (db w) (chat_id user_id client_id) ++ [user_message query])
             query = Ok prompt.
Proof.
  unfold prepare. intros Hrun.
  apply bind_ok in Hrun as (sp & w1 & Hget & Hrun).
  apply bind_ok in Hrun as (system_msg & w1' & Hcheck & Hrun).
  apply bind_ok in Hrun as ([] & w2' & Hstore & Hrun).
  apply bind_ok in Hrun as (history & w3 & Hhist & Hasm).
  apply get_value_ok in Hget as [Hprompt ->].
  destruct sp as [p |]; [destruct (truthy p) eqn:Htruthy |]; try discriminate.
  injection Hcheck as <- <-.
  apply store_message_ok in Hstore as [Hlist ->].
  apply get_messages_ok in Hhist as [-> ->].
  cbn [db faults sent] in *. rewrite log_of_insert in Hasm.
  injection Hasm as Hasm <-.
  exists p. repeat split; assumption.
Qed.

Lemma prepare_run user_id client_id query w p :
  healthy 3 (faults w) ->
  db w !! prompt_key client_id = Some (VString p) -> truthy p = true ->
  (forall s, db w !! chat_key (chat_id user_id client_id) <> Some (VString s)) ->
  prepare user_id client_id query w
  = (assemble (Some (message (lit "system") p))
              (log_of (db w) (chat_id user_id client_id) ++ [user_message query])
              query,
     World (<[chat_key (chat_id user_id client_id)
              := VList (log_of (db w) (chat_id user_id client_id)
                          ++ [user_message query])]> (db w))
           (tail (tail (tail (faults w)))) (sent w)).
Proof.
  intros Hh Hprompt Htruthy Hlist. unfold prepare, get_system_prompt.
  rewrite bind_run, get_value_run, Hprompt by (eapply healthy_S; exact Hh).
  rewrite bind_run, Htruthy. cbv [ret]. cbv beta iota.
  apply healthy_tail in Hh.
  rewrite bind_run, store_message_run
    by (cbn [db faults]; (eapply healthy_S; exact Hh) || exact Hlist).
  apply healthy_tail in Hh.
  rewrite bind_run, get_messages_run; cbn [db faults sent].
  - rewrite log_of_insert. reflexivity.
  - exact Hh.
  - intros s. rewrite lookup_insert_eq. discriminate.
Qed.

End Chat.

(** ** The claims about [chat] *)

Section Claims.
Context `{RT : Runtime}.

(** C1. A client without a registered system prompt is rejected: the call
    leaves the store as it was and sends nothing to the model, whatever
    the store does; when the read of the prompt goes through, the body of
    [chat] raises the 403 "Client not registered or unauthorized."
    exception, which is no store failure, and [chat] returns its text. *)
Theorem unregistered_client_rejected user_id client_id query w :
  db w !! prompt_key client_id = None ->
  db (chat user_id client_id query w).2 = db w /\
  sent (chat user_id client_id query w).2 = sent w /\
  (healthy 1 (faults w) ->
   (chat_body user_id client_id query w).1 = Raise not_registered /\
   (chat user_id client_id query w).1
     = Ok (lit "Error occurred: " ++ exn_str not_registered) /\
   forall m, not_registered <> RedisError m).
Proof.
  intros Hnone. rewrite chat_run. unfold chat_body, get_system_prompt.
  rewrite bind_run. unfold RedisService.get_value, redis_get, command.
  rewrite Hnone.
  destruct (faults w) as [| [e |] rest]; cbn;
    repeat split; try reflexivity; try tauto; discriminate.
Qed.

(** C9. [chat] never raises: it always returns a string, the model's reply
    when its body succeeds and otherwise the text "Error occurred: "
    followed by the text of the exception, of the same type as a reply; the
    route answers with that string under "reply" in both cases. *)
Theorem chat_never_raises user_id client_id query w :
  exists (r : str) w',
    chat user_id client_id query w = (Ok r, w') /\
    chat_route query user_id client_id w = (Ok [(lit "reply", JStr r)], w') /\
    (chat_body user_id client_id query w = (Ok r, w') \/
     exists e, chat_body user_id client_id query w = (Raise e, w') /\
               r = lit "Error occurred: " ++ exn_str e).
Proof.
  unfold chat_route. rewrite bind_run, chat_run.
  destruct (chat_body user_id client_id query w) as [[reply | e] w'];
    eauto 10.
Qed.

(** C3, as the code has it. When the call has the model's reply and the
    append of the assistant's message raises [e], [chat] returns the
    text "Error occurred: " followed by the text of [e], not the reply. *)
Theorem assistant_append_failure user_id client_id query w reply w3 e w4 :
  converse_to_reply user_id client_id query w = (Ok reply, w3) ->
  append_assistant user_id client_id reply w3 = (Raise e, w4) ->
  chat user_id client_id query w = (Ok (lit "Error occurred: " ++ exn_str e), w4).
Proof.
  intros Hreply Happend.
  rewrite chat_run, chat_body_split, Hreply, Happend. reflexivity.
Qed.

(** C4. When the call reaches the model and the model raises [e], [chat]
    returns the non-empty text "Error occurred: " followed by the text of
    [e]; the session's log is the old log followed by the user's message
    and nothing else, and no other key of the store has changed. *)
Theorem model_failure_diagnostic user_id client_id query w prompt w2 e :
  prepare user_id client_id query w = (Ok prompt, w2) ->
  llm_invoke prompt = Raise e ->
  (chat user_id client_id query w).1 = Ok (lit "Error occurred: " ++ exn_str e) /\
  lit "Error occurred: " ++ exn_str e <> [] /\
  log_of (db (chat user_id client_id query w).2) (chat_id user_id client_id)
    = log_of (db w) (chat_id user_id client_id) ++ [user_message query] /\
  (forall k, k <> chat_key (chat_id user_id client_id) ->
             db (chat user_id client_id query w).2 !! k = db w !! k).
Proof.
  intros Hprep Hmodel.
  rewrite chat_run, chat_body_split. unfold converse_to_reply.
  rewrite bind_run, Hprep, invoke_run, Hmodel.
  apply prepare_ok in Hprep as (p & _ & _ & _ & -> & _).
  cbn [fst snd db]. repeat split.
  - discriminate.
  - apply log_of_insert.
  - intros k Hk. apply lookup_insert_ne. congruence.
Qed.

(** C2, as the code has it. Once [set_system_prompt] has stored the empty
    string for a client, [get_system_prompt] returns the empty string and
    not [None]; [chat] tests the prompt for truth, so the call is rejected
    exactly as for a client that was never registered, and the store is
    left as it was. *)
Theorem empty_prompt_rejected client_id user_id query w w1 :
  set_system_prompt client_id [] w = (Ok true, w1) ->
  healthy 1 (faults w1) ->
  (get_system_prompt client_id w1).1 = Ok (Some []) /\
  (chat_body user_id client_id query w1).1 = Raise not_registered /\
  (chat user_id client_id query w1).1
    = Ok (lit "Error occurred: " ++ exn_str not_registered) /\
  db (chat user_id client_id query w1).2 = db w1.
Proof.
  intros Hset Hh.
  assert (Hprompt : db w1 !! prompt_key client_id = Some (VString [])).
  { unfold set_system_prompt, try_except in Hset. rewrite bind_run in Hset.
    destruct (RedisService.set_value _ _ w) as [[b | e] w'] eqn:Hvalue;
      [| discriminate].
    apply set_value_ok in Hvalue as ->. injection Hset as <-.
    apply lookup_insert_eq. }
  assert (Hget : get_system_prompt client_id w1
                 = (Ok (Some []), World (db w1) (tail (faults w1)) (sent w1))).
  { unfold get_system_prompt. rewrite get_value_run, Hprompt by exact Hh.
    reflexivity. }
  rewrite chat_run. unfold chat_body. rewrite bind_run, Hget.
  repeat split.
Qed.


(** X20. On a history that is not empty and that decodes to turns, the
    source assembles the text of the specification: the system line when
    there is a system message, one line per turn, and the line of the
    query, joined by single newlines. *)
Lemma assemble_refines_spec P history turns q :
  history <> [] ->
  rmap decode_turn history = Ok turns ->
  assemble (Some (message (lit "system") P)) history q
    = Ok (assemble_spec (Some P) turns q) /\
  assemble None history q = Ok (assemble_spec None turns q).
Proof.
  intros Hne Hturns. rewrite assemble_some, assemble_none.
  rewrite (rmap_format_decode _ _ Hturns). cbn [rbind]. unfold assemble_spec.
  assert (Hlines : map turn_line turns <> []).
  { destruct history as [| m history]; [contradiction |]. cbn [rmap] in Hturns.
    destruct (decode_turn m); [| discriminate].
    destruct (rmap decode_turn history); [| discriminate].
    injection Hturns as <-. discriminate. }
  split; f_equal.
  - cbn [app]. rewrite join_cons by (destruct (map turn_line turns); [contradiction | discriminate]).
    rewrite join_app by (assumption || discriminate).
    rewrite <- !app_assoc. reflexivity.
  - cbn [app]. rewrite join_app by (assumption || discriminate). reflexivity.
Qed.



(** C7. Client 15 registers the prompt "You are helpful.", the log of
    session 12:15 is empty, user 12 sends "What is 2+2?" and the model
    answers "4": [chat] returns "4" and the log then holds the user's turn
    followed by the assistant's, and nothing else. *)
Theorem scenario_two_plus_two w0 :
  faults w0 = [] ->
  db w0 !! chat_key (lit "12:15") = None ->
  (forall prompt, llm_invoke prompt = Ok (lit "4")) ->
  (set_system_prompt (lit "15") (lit "You are helpful.") w0).1 = Ok true /\
  (chat (lit "12") (lit "15") (lit "What is 2+2?")
        (set_system_prompt (lit "15") (lit "You are helpful.") w0).2).1
    = Ok (lit "4") /\
  (get_history (lit "12:15")
     (chat (lit "12") (lit "15") (lit "What is 2+2?")
           (set_system_prompt (lit "15") (lit "You are helpful.") w0).2).2).1
    = Ok [ {| role := lit "user"; text := lit "What is 2+2?" |};
           {| role := lit "assistant"; text := lit "4" |} ].
Proof.
  intros Hfaults Hlog Hmodel.
  assert (Hset : set_system_prompt (lit "15") (lit "You are helpful.") w0
                 = (Ok true, World (<[prompt_key (lit "15")
                                      := VString (lit "You are helpful.")]> (db w0))
                                   [] (sent w0))).
  { unfold set_system_prompt, try_except.
    rewrite bind_run, set_value_run by (rewrite Hfaults; exact I).
    rewrite Hfaults. reflexivity. }
  rewrite Hset. cbn [fst snd]. split; [reflexivity |].
  set (w1 := World _ [] (sent w0)).
  assert (Hprep := prepare_run (lit "12") (lit "15") (lit "What is 2+2?") w1
                     (lit "You are helpful.") I (lookup_insert_eq _ _ _) eq_refl).
  change (chat_id (lit "12") (lit "15")) with (lit "12:15") in *.
  assert (Hkey : db w1 !! chat_key (lit "12:15") = None).
  { subst w1. cbn [db]. rewrite lookup_insert_ne by apply prompt_key_not_chat_key.
    exact Hlog. }
  assert (Hold : log_of (db w1) (lit "12:15") = []).
  { unfold log_of. rewrite Hkey. reflexivity. }
  rewrite Hold in Hprep. cbn [app] in Hprep.
  assert (Hlit : forall s, forallb (fun c => (0 <=? c) && (c <? 55296)) (lit s) = true
                           -> unicode_text (lit s)) by apply unicode_text_lit.
  rewrite assemble_some in Hprep. cbn [rmap] in Hprep. unfold user_message in Hprep.
  rewrite format_message_message in Hprep by (apply Hlit; reflexivity).
  cbn [rbind] in Hprep.
  specialize (Hprep ltac:(intros s; rewrite Hkey; discriminate)).
  set (w2 := World _ _ (sent w1)) in Hprep.
  assert (Hbody : chat_body (lit "12") (lit "15") (lit "What is 2+2?") w1
                  = (Ok (lit "4"),
                     World (<[chat_key (lit "12:15")
                              := VList [user_message (lit "What is 2+2?");
                                        json_dumps (JObj (message (lit "assistant") (lit "4")))]]>
                              (db w2))
                           [] (sent w2 ++ [lit "system: You are helpful." ++ LF
                                             ++ lit "user: What is 2+2?" ++ LF
                                             ++ lit "user: What is 2+2?"]))).
  { rewrite chat_body_split. unfold converse_to_reply.
    rewrite bind_run, Hprep, invoke_run, Hmodel. unfold append_assistant.
    change (chat_id (lit "12") (lit "15")) with (lit "12:15").
    rewrite store_message_run.
    - cbn [db faults sent]. subst w2. cbn [db faults sent].
      rewrite log_of_insert. reflexivity.
    - exact I.
    - intros s. subst w2. cbn [db]. rewrite lookup_insert_eq. discriminate. }
  rewrite chat_run, Hbody. cbn [fst snd]. split; [reflexivity |].
  unfold get_history. rewrite bind_run, get_messages_run.
  - cbn [db]. rewrite log_of_insert. cbn [rmap lift fst]. unfold user_message.
    rewrite !decode_turn_message by (apply Hlit; reflexivity).
    reflexivity.
  - exact I.
  - intros s. cbn [db]. rewrite lookup_insert_eq. discriminate.
Qed.

End Claims.


(** C10. The session key is not injective: the users "a:b" of client "c" and
    "a" of client "b:c" are different pairs with the same key, and in
    general a colon may move from one side to the other; the two sessions
    append to and read the same log. *)
Theorem chat_id_not_injective :
  (lit "a:b", lit "c") <> (lit "a", lit "b:c") /\
  chat_id (lit "a:b") (lit "c") = chat_id (lit "a") (lit "b:c") /\
  (forall a b c, chat_id (a ++ lit ":" ++ b) c = chat_id a (b ++ lit ":" ++ c)) /\
  (forall m w, RedisService.store_message (chat_id (lit "a:b") (lit "c")) m w
               = RedisService.store_message (chat_id (lit "a") (lit "b:c")) m w) /\
  (forall w, RedisService.get_messages (chat_id (lit "a:b") (lit "c")) w
             = RedisService.get_messages (chat_id (lit "a") (lit "b:c")) w).
Proof.
  repeat split; try reflexivity.
  - discriminate.
  - intros a b c. unfold chat_id. rewrite <- !app_assoc. reflexivity.
Qed.

(** *** The claims that fail, at explicit inputs *)

(** C2 fails: with the empty string registered for client 15, the prompt is
    read back as the empty string, and the call is rejected as if the client
    were not registered. *)
Lemma empty_prompt_counterexample :
  (set_system_prompt (lit "15") [] empty_world).1 = Ok true /\
  (get_system_prompt (lit "15") (set_system_prompt (lit "15") [] empty_world).2).1
    = Ok (Some []) /\
  (chat_body (RT := runtime_four) (lit "12") (lit "15") (lit "hi")
     (set_system_prompt (lit "15") [] empty_world).2).1 = Raise not_registered.
Proof. vm_compute. repeat split. Qed.

(** C3 fails: the model has answered "4" and the append of the assistant's
    message fails; [chat] returns the error text and not "4". *)
Lemma assistant_append_counterexample :
  (converse_to_reply (RT := runtime_four) (lit "12") (lit "15") (lit "What is 2+2?")
     (registered_world fourth_fails)).1 = Ok (lit "4") /\
  (chat (RT := runtime_four) (lit "12") (lit "15") (lit "What is 2+2?")
     (registered_world fourth_fails)).1
    = Ok (lit "Error occurred: Connection refused") /\
  (chat (RT := runtime_four) (lit "12") (lit "15") (lit "What is 2+2?")
     (registered_world fourth_fails)).1 <> Ok (lit "4").
Proof. vm_compute. repeat split. discriminate. Qed.


(** *** The theorems with hypotheses, at explicit inputs *)

Lemma unregistered_client_rejected_witness :
  db empty_world !! prompt_key (lit "15") = None /\
  (db (chat (RT := runtime_four) (lit "12") (lit "15") (lit "hi") empty_world).2
     = db empty_world /\
   sent (chat (RT := runtime_four) (lit "12") (lit "15") (lit "hi") empty_world).2
     = sent empty_world /\
   (healthy 1 (faults empty_world) ->
    (chat_body (RT := runtime_four) (lit "12") (lit "15") (lit "hi") empty_world).1
      = Raise not_registered /\
    (chat (RT := runtime_four) (lit "12") (lit "15") (lit "hi") empty_world).1
      = Ok (lit "Error occurred: " ++ @exn_str runtime_four not_registered) /\
    forall m, not_registered <> RedisError m)).
Proof.
  split; [reflexivity |].
  apply (unregistered_client_rejected (RT := runtime_four)). reflexivity.
Defined.

Lemma empty_prompt_rejected_witness :
  set_system_prompt (lit "15") [] empty_world
    = (Ok true, (set_system_prompt (lit "15") [] empty_world).2) /\
  healthy 1 (faults (set_system_prompt (lit "15") [] empty_world).2) /\
  (chat (RT := runtime_four) (lit "12") (lit "15") (lit "hi")
     (set_system_prompt (lit "15") [] empty_world).2).1
    = Ok (lit "Error occurred: 403: Client not registered or unauthorized.").
Proof.
  split; [vm_compute; reflexivity |]. split; [exact I |].
  apply (empty_prompt_rejected (RT := runtime_four) (lit "15") (lit "12") (lit "hi")
           empty_world).
  - vm_compute. reflexivity.
  - exact I.
Defined.

Lemma assistant_append_failure_witness :
  converse_to_reply (RT := runtime_four) (lit "12") (lit "15") (lit "What is 2+2?")
    (registered_world fourth_fails)
    = (Ok (lit "4"),
       (converse_to_reply (RT := runtime_four) (lit "12") (lit "15")
          (lit "What is 2+2?") (registered_world fourth_fails)).2) /\
  chat (RT := runtime_four) (lit "12") (lit "15") (lit "What is 2+2?")
    (registered_world fourth_fails)
    = (Ok (lit "Error occurred: " ++ @exn_str runtime_four (RedisError (lit "Connection refused"))),
       (chat (RT := runtime_four) (lit "12") (lit "15") (lit "What is 2+2?")
          (registered_world fourth_fails)).2).
Proof.
  split; [vm_compute; reflexivity |].
  apply (assistant_append_failure (RT := runtime_four) (lit "12") (lit "15")
           (lit "What is 2+2?") (registered_world fourth_fails) (lit "4")
           (converse_to_reply (RT := runtime_four) (lit "12") (lit "15")
              (lit "What is 2+2?") (registered_world fourth_fails)).2).
  - vm_compute. reflexivity.
  - vm_compute. reflexivity.
Defined.

Lemma model_failure_diagnostic_witness :
  prepare (RT := runtime_down) (lit "12") (lit "15") (lit "hi") (registered_world [])
    = (Ok (lit "system: You are helpful." ++ LF ++ lit "user: hi" ++ LF ++ lit "user: hi"),
       (prepare (RT := runtime_down) (lit "12") (lit "15") (lit "hi")
          (registered_world [])).2) /\
  (chat (RT := runtime_down) (lit "12") (lit "15") (lit "hi") (registered_world [])).1
    = Ok (lit "Error occurred: rate limit exceeded") /\
  log_of (db (chat (RT := runtime_down) (lit "12") (lit "15") (lit "hi")
                (registered_world [])).2) (lit "12:15")
    = [user_message (lit "hi")].
Proof.
  split; [vm_compute; reflexivity |].
  destruct (model_failure_diagnostic (RT := runtime_down) (lit "12") (lit "15") (lit "hi")
              (registered_world [])
              (lit "system: You are helpful." ++ LF ++ lit "user: hi" ++ LF ++ lit "user: hi")
              (prepare (RT := runtime_down) (lit "12") (lit "15") (lit "hi")
                 (registered_world [])).2)
    with (e := ModelError (lit "rate limit exceeded"))
    as (Hreply & _ & Hlog & _).
  - vm_compute. reflexivity.
  - reflexivity.
  - split; [exact Hreply | exact Hlog].
Defined.


Lemma scenario_two_plus_two_witness :
  faults empty_world = [] /\
  db empty_world !! chat_key (lit "12:15") = None /\
  (forall prompt, model_four prompt = Ok (lit "4")) /\
  (chat (RT := runtime_four) (lit "12") (lit "15") (lit "What is 2+2?")
        (set_system_prompt (lit "15") (lit "You are helpful.") empty_world).2).1
    = Ok (lit "4").
Proof.
  split; [reflexivity |]. split; [reflexivity |]. split; [reflexivity |].
  apply (scenario_two_plus_two (RT := runtime_four) empty_world); reflexivity.
Defined.


(** * More of the code *)

(** ** The store service: writes seen by the reads that follow *)

Lemma delete_key_ok key w u w' :
  RedisService.delete_key key w = (Ok u, w') ->
  w' = World (delete key (db w)) (tail (faults w)) (sent w).
Proof.
  unfold RedisService.delete_key. intros Hrun.
  apply bind_ok in Hrun as (n & w1 & Hdel & Hret).
  apply command_ok in Hdel as [[= _ Hdb] Hw]. injection Hret as _ <-.
  rewrite Hw, <- Hdb. reflexivity.
Qed.

Lemma check_redis_key_run chat_id w :
  healthy 1 (faults w) ->
  RedisService.check_redis_key chat_id w
  = (Ok (bool_decide (is_Some (db w !! chat_key chat_id))),
     World (db w) (tail (faults w)) (sent w)).
Proof.
  intros Hh. unfold RedisService.check_redis_key, redis_exists.
  rewrite bind_run, command_run by exact Hh. cbn [fst snd ret].
  destruct (db w !! chat_key chat_id) as [v |]; reflexivity.
Qed.

Lemma set_system_prompt_cases client_id prompt w :
  (healthy 1 (faults w) /\
   set_system_prompt client_id prompt w
   = (Ok true, World (<[prompt_key client_id := VString prompt]> (db w))
                     (tail (faults w)) (sent w))) \/
  (exists e rest, faults w = Some e :: rest /\
   set_system_prompt client_id prompt w = (Ok false, World (db w) rest (sent w))).
Proof.
  unfold set_system_prompt, try_except. rewrite bind_run.
  destruct (faults w) as [| [e |] rest] eqn:Hf.
  - left. split; [exact I |].
    rewrite set_value_run by (rewrite Hf; exact I). rewrite Hf. reflexivity.
  - right. exists e, rest. split; [reflexivity |].
    unfold RedisService.set_value, redis_set. rewrite bind_run.
    unfold command. rewrite Hf. reflexivity.
  - left. split; [exact I |].
    rewrite set_value_run by (rewrite Hf; exact I). rewrite Hf. reflexivity.
Qed.

(** X1. A prompt stored for a client is the prompt read for it: once
    [set_system_prompt] has returned [True], [get_system_prompt] returns the
    text just written, whatever was stored for the client before. *)
Theorem prompt_set_then_get client_id prompt w w1 :
  set_system_prompt client_id prompt w = (Ok true, w1) ->
  healthy 1 (faults w1) ->
  get_system_prompt client_id w1
  = (Ok (Some prompt), World (db w1) (tail (faults w1)) (sent w1)).
Proof.
  intros Hset Hh.
  destruct (set_system_prompt_cases client_id prompt w)
    as [[_ Hok] | (e & rest & _ & Hfail)]; rewrite Hset in *; [| discriminate].
  injection Hok as ->. unfold get_system_prompt.
  rewrite get_value_run by exact Hh. cbn [db]. rewrite lookup_insert_eq.
  reflexivity.
Qed.

(** X2. [set_system_prompt] never raises. It returns [True] with the prompt
    stored under the client's key, or [False] with the store as it was, and
    [False] exactly when the store command failed. *)
Theorem set_system_prompt_outcome client_id prompt w :
  ((set_system_prompt client_id prompt w).1 = Ok true /\
   db (set_system_prompt client_id prompt w).2
     = <[prompt_key client_id := VString prompt]> (db w) /\
   healthy 1 (faults w)) \/
  ((set_system_prompt client_id prompt w).1 = Ok false /\
   db (set_system_prompt client_id prompt w).2 = db w /\
   exists e rest, faults w = Some e :: rest).
Proof.
  destruct (set_system_prompt_cases client_id prompt w)
    as [[Hh ->] | (e & rest & Hf & ->)]; [left | right]; cbn [fst snd db]; eauto.
Qed.

(** X3. Registering a prompt touches no conversation log: the keys of the
    prompts and the keys of the logs never coincide. *)
Theorem set_system_prompt_keeps_logs client_id prompt w chat_id :
  prompt_key client_id <> chat_key chat_id /\
  db (set_system_prompt client_id prompt w).2 !! chat_key chat_id
    = db w !! chat_key chat_id /\
  log_of (db (set_system_prompt client_id prompt w).2) chat_id = log_of (db w) chat_id.
Proof.
  split; [apply prompt_key_not_chat_key |].
  destruct (set_system_prompt_cases client_id prompt w)
    as [[Hh ->] | (e & rest & Hf & ->)]; cbn [snd db].
  - split; [| apply log_of_insert_prompt].
    apply lookup_insert_ne, prompt_key_not_chat_key.
  - split; reflexivity.
Qed.

(** X4. A message appended to a session is read back at the tail of its
    log: after [store_message] the log read by [get_messages] is the log of
    before followed by the message. *)
Theorem store_then_read chat_id message w u w1 :
  RedisService.store_message chat_id message w = (Ok u, w1) ->
  healthy 1 (faults w1) ->
  RedisService.get_messages chat_id w1
  = (Ok (log_of (db w) chat_id ++ [message]),
     World (db w1) (tail (faults w1)) (sent w1)).
Proof.
  intros Hstore Hh. apply store_message_ok in Hstore as [_ ->].
  rewrite get_messages_run.
  - cbn [db]. rewrite log_of_insert. reflexivity.
  - exact Hh.
  - intros s. cbn [db]. rewrite lookup_insert_eq. discriminate.
Qed.

(** X5. After [delete_chat] the session has no log: [get_messages] returns
    the empty list, [check_redis_key] returns [False], and every other key
    of the store is as before. *)
Theorem delete_chat_empties chat_id w u w1 :
  RedisService.delete_chat chat_id w = (Ok u, w1) ->
  healthy 1 (faults w1) ->
  (RedisService.get_messages chat_id w1).1 = Ok [] /\
  (RedisService.check_redis_key chat_id w1).1 = Ok false /\
  (forall k, k <> chat_key chat_id -> db w1 !! k = db w !! k).
Proof.
  intros Hdel Hh. apply delete_key_ok in Hdel. subst w1. cbn [faults] in Hh.
  assert (Hgone : delete (chat_key chat_id) (db w) !! chat_key chat_id = None)
    by apply lookup_delete_eq.
  repeat split.
  - rewrite get_messages_run; cbn [db faults fst].
    + unfold log_of. rewrite Hgone. reflexivity.
    + exact Hh.
    + intros s. rewrite Hgone. discriminate.
  - rewrite check_redis_key_run by exact Hh. cbn [db fst]. rewrite Hgone.
    reflexivity.
  - intros k Hk. cbn [db]. apply lookup_delete_ne. congruence.
Qed.

(** X6. A session that has received a message exists: after [store_message]
    has succeeded, [check_redis_key] returns [True]. *)
Theorem stored_session_exists chat_id message w u w1 :
  RedisService.store_message chat_id message w = (Ok u, w1) ->
  healthy 1 (faults w1) ->
  (RedisService.check_redis_key chat_id w1).1 = Ok true.
Proof.
  intros Hstore Hh. apply store_message_ok in Hstore as [_ ->].
  rewrite check_redis_key_run by exact Hh. cbn [db fst].
  rewrite lookup_insert_eq. reflexivity.
Qed.

(** ** What a call of [chat] does to the store and to the model *)

Lemma command_read {A} (run : gmap str value -> result A * gmap str value) w :
  (forall d, (run d).2 = d) ->
  db (command run w).2 = db w /\ sent (command run w).2 = sent w.
Proof.
  intros Hread. split; [| apply command_sent]. unfold command.
  destruct (faults w) as [| [e |] rest]; try reflexivity;
    specialize (Hread (db w)); destruct (run (db w)); exact Hread.
Qed.

Lemma get_value_frame key w :
  db (RedisService.get_value key w).2 = db w /\
  sent (RedisService.get_value key w).2 = sent w.
Proof.
  apply command_read. intros d. destruct (d !! key) as [[s | l] |]; reflexivity.
Qed.

Lemma get_messages_frame chat_id w :
  db (RedisService.get_messages chat_id w).2 = db w /\
  sent (RedisService.get_messages chat_id w).2 = sent w.
Proof.
  apply command_read. intros d.
  destruct (d !! chat_key chat_id) as [[s | l] |]; reflexivity.
Qed.

Lemma store_message_cases chat_id m w :
  sent (RedisService.store_message chat_id m w).2 = sent w /\
  (((RedisService.store_message chat_id m w).1 = Ok tt /\
    (forall s, db w !! chat_key chat_id <> Some (VString s)) /\
    db (RedisService.store_message chat_id m w).2 = appended (db w) chat_id [m]) \/
   ((exists e, (RedisService.store_message chat_id m w).1 = Raise e) /\
    db (RedisService.store_message chat_id m w).2 = db w)).
Proof.
  destruct (RedisService.store_message chat_id m w) as [[[] | e] w'] eqn:Hrun.
  - apply store_message_ok in Hrun as [Hlist ->]. cbn [fst snd db sent].
    split; [reflexivity |]. left. auto.
  - cbn [fst snd]. revert Hrun.
    unfold RedisService.store_message, redis_rpush. rewrite bind_run.
    unfold command.
    destruct (faults w) as [| [e' |] rest];
      destruct (db w !! chat_key chat_id) as [[s | l] |];
      intros [= <- <-]; cbn [db sent]; eauto.
Qed.

Lemma appended_twice d chat_id m1 m2 :
  appended (appended d chat_id [m1]) chat_id [m2] = appended d chat_id [m1; m2].
Proof.
  unfold appended. rewrite log_of_insert, insert_insert_eq, <- app_assoc.
  reflexivity.
Qed.

Lemma log_of_appended d chat_id new :
  log_of (appended d chat_id new) chat_id = log_of d chat_id ++ new.
Proof. apply log_of_insert. Qed.

Lemma appended_frame d chat_id new k :
  k <> chat_key chat_id -> appended d chat_id new !! k = d !! k.
Proof. intros Hk. apply lookup_insert_ne. congruence. Qed.

Lemma chat_key_inj a b : chat_key a = chat_key b -> a = b.
Proof. unfold chat_key. apply app_inv_head. Qed.

Section ChatEffects.
Context `{RT : Runtime}.

Lemma prepare_cases user_id client_id query w :
  sent (prepare user_id client_id query w).2 = sent w /\
  (((exists e, (prepare user_id client_id query w).1 = Raise e) /\
    db (prepare user_id client_id query w).2 = db w) \/
   ((forall s, db w !! chat_key (chat_id user_id client_id) <> Some (VString s)) /\
    db (prepare user_id client_id query w).2
      = appended (db w) (chat_id user_id client_id) [user_message query])).
Proof.
  unfold prepare. rewrite bind_run. unfold get_system_prompt.
  destruct (get_value_frame (prompt_key client_id) w) as [Hdb1 Hsent1].
  destruct (RedisService.get_value (prompt_key client_id) w) as [[sp | e] w1];
    cbn [fst snd] in *; [| split; [exact Hsent1 | left; eauto]].
  rewrite bind_run.
  assert (Hcheck :
    match sp with
    | Some p => if truthy p then ret (message (lit "system") p) else raise not_registered
    | None => raise not_registered
    end w1 = (Raise not_registered, w1) \/
    exists p, match sp with
    | Some p => if truthy p then ret (message (lit "system") p) else raise not_registered
    | None => raise not_registered
    end w1 = (Ok (message (lit "system") p), w1)).
  { destruct sp as [p |]; [destruct (truthy p) |]; eauto. }
  destruct Hcheck as [-> | [p ->]]; [split; [exact Hsent1 | left; eauto] |].
  rewrite bind_run.
  destruct (store_message_cases (chat_id user_id client_id) (user_message query) w1)
    as [Hsent2 Hstore]. fold (user_message query).
  destruct (RedisService.store_message (chat_id user_id client_id)
              (user_message query) w1) as [[[] | e] w2]; cbn [fst snd] in *.
  - destruct Hstore as [(_ & Hlist & Hdb2) | [[e He] _]]; [| discriminate].
    rewrite bind_run.
    destruct (get_messages_frame (chat_id user_id client_id) w2) as [Hdb3 Hsent3].
    destruct (RedisService.get_messages (chat_id user_id client_id) w2)
      as [[history | e] w3]; cbn [fst snd] in *.
    + unfold lift. cbn [snd].
      split; [congruence |]. right. rewrite <- Hdb1. split; [exact Hlist |].
      congruence.
    + split; [congruence |]. right. rewrite <- Hdb1. split; [exact Hlist |].
      congruence.
  - destruct Hstore as [(Hfalse & _) | [_ Hdb2]]; [discriminate |].
    split; [congruence |]. left. split; [eauto | congruence].
Qed.

(** Every way a call can end, as the store and the model see it. *)
Lemma chat_cases user_id client_id query w :
  (sent (chat user_id client_id query w).2 = sent w /\
   db (chat user_id client_id query w).2 = db w) \/
  ((forall s, db w !! chat_key (chat_id user_id client_id) <> Some (VString s)) /\
   ((sent (chat user_id client_id query w).2 = sent w /\
     db (chat user_id client_id query w).2
       = appended (db w) (chat_id user_id client_id) [user_message query]) \/
    exists prompt,
      sent (chat user_id client_id query w).2 = sent w ++ [prompt] /\
      (db (chat user_id client_id query w).2
         = appended (db w) (chat_id user_id client_id) [user_message query] \/
       exists reply,
         llm_invoke prompt = Ok reply /\
         db (chat user_id client_id query w).2
           = appended (db w) (chat_id user_id client_id)
               [user_message query; assistant_message reply]))).
Proof.
  assert (Hsame : (chat user_id client_id query w).2
                  = (chat_body user_id client_id query w).2).
  { rewrite chat_run.
    destruct (chat_body user_id client_id query w) as [[r | e] w']; reflexivity. }
  rewrite Hsame, chat_body_split. unfold converse_to_reply. rewrite bind_run.
  destruct (prepare_cases user_id client_id query w) as [Hsent Hprep].
  destruct (prepare user_id client_id query w) as [[prompt | e] w2];
    cbn [fst snd] in *.
  - destruct Hprep as [[[e He] _] | [Hlist Hdb2]]; [discriminate |].
    right. split; [exact Hlist |]. right. exists prompt.
    rewrite invoke_run.
    destruct (llm_invoke prompt) as [reply | e] eqn:Hmodel; cbn [snd sent db].
    + unfold append_assistant. fold (assistant_message reply).
      set (w3 := World (db w2) (faults w2) (sent w2 ++ [prompt])).
      destruct (store_message_cases (chat_id user_id client_id)
                  (assistant_message reply) w3) as [Hsent4 Hstore].
      destruct (RedisService.store_message (chat_id user_id client_id)
                  (assistant_message reply) w3) as [[[] | e] w4];
        cbn [fst snd] in *.
      * destruct Hstore as [(_ & _ & Hdb4) | [[e He] _]]; [| discriminate].
        split; [rewrite Hsent4; subst w3; cbn [sent]; congruence |].
        right. exists reply. split; [reflexivity |].
        rewrite Hdb4. subst w3. cbn [db]. rewrite Hdb2. apply appended_twice.
      * destruct Hstore as [(Hfalse & _) | [_ Hdb4]]; [discriminate |].
        split; [rewrite Hsent4; subst w3; cbn [sent]; congruence |].
        left. rewrite Hdb4. subst w3. exact Hdb2.
    + split; [congruence | left; exact Hdb2].
  - destruct Hprep as [[_ Hdb2] | [Hlist Hdb2]].
    + left. split; assumption.
    + right. split; [exact Hlist |]. left. split; assumption.
Qed.

(** X7. A call changes nothing but the log of its own session: every other
    key of the store, the logs of the other sessions and the prompts of all
    clients are as before, however the call ends. *)
Theorem chat_touches_own_log_only user_id client_id query w :
  (forall k, k <> chat_key (chat_id user_id client_id) ->
             db (chat user_id client_id query w).2 !! k = db w !! k) /\
  (forall other, other <> chat_id user_id client_id ->
             log_of (db (chat user_id client_id query w).2) other = log_of (db w) other) /\
  (forall client, db (chat user_id client_id query w).2 !! prompt_key client
                  = db w !! prompt_key client).
Proof.
  assert (Hframe : forall k, k <> chat_key (chat_id user_id client_id) ->
             db (chat user_id client_id query w).2 !! k = db w !! k).
  { intros k Hk.
    destruct (chat_cases user_id client_id query w)
      as [[_ ->] | [_ [[_ ->] | (prompt & _ & [-> | (reply & _ & ->)])]]];
      try reflexivity; apply appended_frame; exact Hk. }
  split; [exact Hframe |]. split.
  - intros other Hother. unfold log_of. rewrite Hframe; [reflexivity |].
    intros Heq. apply chat_key_inj in Heq. contradiction.
  - intros client. apply Hframe, prompt_key_not_chat_key.
Qed.

(** X8. A call only ever appends to its log, and sends the model at most
    one text: the log afterwards is the log of before followed by nothing,
    by the user's message, or by the user's message and the assistant's
    message holding the reply of the model; the assistant's message is
    there only if the model was invoked and replied, and the model is
    invoked only after the user's message has been stored. *)
Theorem chat_appends_only user_id client_id query w :
  (sent (chat user_id client_id query w).2 = sent w /\
   (log_of (db (chat user_id client_id query w).2) (chat_id user_id client_id)
      = log_of (db w) (chat_id user_id client_id) \/
    log_of (db (chat user_id client_id query w).2) (chat_id user_id client_id)
      = log_of (db w) (chat_id user_id client_id) ++ [user_message query])) \/
  (exists prompt,
     sent (chat user_id client_id query w).2 = sent w ++ [prompt] /\
     (log_of (db (chat user_id client_id query w).2) (chat_id user_id client_id)
        = log_of (db w) (chat_id user_id client_id) ++ [user_message query] \/
      exists reply,
        llm_invoke prompt = Ok reply /\
        log_of (db (chat user_id client_id query w).2) (chat_id user_id client_id)
          = log_of (db w) (chat_id user_id client_id)
              ++ [user_message query; assistant_message reply])).
Proof.
  destruct (chat_cases user_id client_id query w)
    as [[Hsent ->] | [_ [[Hsent ->] | (prompt & Hsent & [-> | (reply & Hm & ->)])]]];
    rewrite ?log_of_appended; eauto 10.
Qed.

(** X9. A call that succeeds has sent the model one text, returns the reply
    the model gave to it, and has appended to the log of its session the
    user's message followed by the assistant's message with that reply. *)
Theorem chat_success user_id client_id query w reply w' :
  chat_body user_id client_id query w = (Ok reply, w') ->
  chat user_id client_id query w = (Ok reply, w') /\
  exists prompt,
    sent w' = sent w ++ [prompt] /\ llm_invoke prompt = Ok reply /\
    log_of (db w') (chat_id user_id client_id)
      = log_of (db w) (chat_id user_id client_id)
          ++ [user_message query; assistant_message reply].
Proof.
  intros Hbody. split; [rewrite chat_run, Hbody; reflexivity |].
  rewrite chat_body_split in Hbody.
  destruct (converse_to_reply user_id client_id query w) as [[r | e] w3] eqn:Hreply;
    [| discriminate].
  destruct (append_assistant user_id client_id r w3) as [[[] | e] w4] eqn:Happend;
    [| discriminate].
  injection Hbody as -> ->.
  apply store_message_ok in Happend as [_ ->].
  unfold converse_to_reply in Hreply.
  apply bind_ok in Hreply as (prompt & w2 & Hprep & Hinvoke).
  rewrite invoke_run in Hinvoke. injection Hinvoke as Hmodel <-.
  apply prepare_ok in Hprep as (p & _ & _ & _ & -> & _).
  exists prompt. cbn [sent db]. repeat split; [exact Hmodel |].
  rewrite log_of_insert, log_of_insert, <- app_assoc. reflexivity.
Qed.

End ChatEffects.

Section ChatEdges.
Context `{RT : Runtime}.

Lemma chat_body_rejects user_id client_id query w :
  db w !! prompt_key client_id = None -> healthy 1 (faults w) ->
  chat_body user_id client_id query w
  = (Raise not_registered, World (db w) (tail (faults w)) (sent w)).
Proof.
  intros Hnone Hh. unfold chat_body, get_system_prompt.
  rewrite bind_run, get_value_run, Hnone by exact Hh. reflexivity.
Qed.

(** X10. Deleting the key of a client's prompt unregisters the client: the
    next call for it is rejected with the 403 exception and leaves the
    store as it is. *)
Theorem delete_prompt_unregisters user_id client_id query w u w1 :
  RedisService.delete_key (prompt_key client_id) w = (Ok u, w1) ->
  healthy 1 (faults w1) ->
  (get_system_prompt client_id w1).1 = Ok None /\
  chat user_id client_id query w1
  = (Ok (lit "Error occurred: " ++ exn_str not_registered),
     World (db w1) (tail (faults w1)) (sent w1)).
Proof.
  intros Hdel Hh. apply delete_key_ok in Hdel.
  assert (Hnone : db w1 !! prompt_key client_id = None).
  { subst w1. cbn [db]. apply lookup_delete_eq. }
  split.
  - unfold get_system_prompt. rewrite get_value_run, Hnone by exact Hh.
    reflexivity.
  - rewrite chat_run, chat_body_rejects by assumption. reflexivity.
Qed.

(** X11. A record of the log that the formatter cannot read blocks the
    session: with the client registered and the store working, the call
    returns the text of the reading error, the model is not invoked, and
    the user's message has been appended all the same. *)
Theorem unreadable_log_blocks_chat user_id client_id query w p e :
  db w !! prompt_key client_id = Some (VString p) -> truthy p = true ->
  healthy 3 (faults w) ->
  (forall s, db w !! chat_key (chat_id user_id client_id) <> Some (VString s)) ->
  rmap format_message (log_of (db w) (chat_id user_id client_id)) = Raise e ->
  (chat user_id client_id query w).1 = Ok (lit "Error occurred: " ++ exn_str e) /\
  sent (chat user_id client_id query w).2 = sent w /\
  log_of (db (chat user_id client_id query w).2) (chat_id user_id client_id)
    = log_of (db w) (chat_id user_id client_id) ++ [user_message query].
Proof.
  intros Hprompt Htruthy Hh Hlist Hlog.
  rewrite chat_run, chat_body_split. unfold converse_to_reply.
  rewrite bind_run, (prepare_run _ _ _ _ p) by assumption.
  rewrite assemble_some, rmap_snoc, Hlog. cbn [rbind fst snd sent db].
  repeat split. apply log_of_insert.
Qed.


End ChatEdges.

(** ** What is stored is printable ASCII *)

Lemma hex_digit_printable d : 0 <= d < 16 -> printable (hex_digit d).
Proof.
  intros Hd. unfold printable, hex_digit.
  destruct (Z.ltb_spec d 10); lia.
Qed.

Lemma u_escape_printable n : Forall printable (u_escape n).
Proof.
  unfold u_escape, hex4.
  repeat (constructor;
          [first [unfold printable; lia
                 | apply hex_digit_printable, Z.mod_pos_bound; lia] |]).
  constructor.
Qed.

Lemma escape_char_printable c : Forall printable (escape_char c).
Proof.
  unfold escape_char.
  repeat (match goal with
          | |- context [if ?a =? ?b then _ else _] => destruct (Z.eqb_spec a b)
          end; [repeat constructor; unfold printable; lia |]).
  destruct (Z.leb_spec 32 c), (Z.leb_spec c 126); cbn [andb];
    try (repeat constructor; unfold printable; lia);
    destruct (Z.ltb_spec c 65536);
    try apply u_escape_printable;
    cbv zeta; apply Forall_app; split; apply u_escape_printable.
Qed.

Lemma escape_printable s : Forall printable (escape s).
Proof.
  induction s as [| c s IH]; cbn [escape]; [constructor |].
  apply Forall_app. split; [apply escape_char_printable | exact IH].
Qed.

(** X13. Whatever the role and the text, the record [json.dumps] writes for
    a message holds printable ASCII characters only: every other character
    is written as an escape, so the log never holds a raw control character
    or a character outside ASCII. *)
Theorem stored_message_printable r t :
  Forall printable (json_dumps (JObj (message r t))).
Proof.
  rewrite dumps_message.
  repeat first
    [ apply Forall_cons; split; [unfold printable; lia |]
    | apply Forall_app; split; [apply escape_printable |]
    | apply Forall_nil; exact I ].
Qed.

(** ** The routes of the prompt *)

Lemma str_eqb_eq a b : str_eqb a b = true <-> a = b.
Proof.
  revert b. induction a as [| x a IH]; intros [| y b]; cbn [str_eqb];
    try (split; [discriminate | discriminate]); [tauto |].
  rewrite andb_true_iff, Z.eqb_eq, IH. split; [intros [-> ->] | intros [= -> ->]]; auto.
Qed.

(** X14. The route [POST /set-prompt] answers with the client and the prompt
    whatever the store did: the service gives it a boolean, which is never
    [None], so the branch of the 500 error is never taken. When the store
    command failed, the answer is the same and nothing has been stored. *)
Theorem set_prompt_route_always_answers clientid system_prompt w :
  (Routes.set_system_prompt clientid system_prompt w).1
    = Ok (Routes.prompt_body clientid system_prompt) /\
  (forall e rest, faults w = Some e :: rest ->
     db (Routes.set_system_prompt clientid system_prompt w).2 = db w).
Proof.
  unfold Routes.set_system_prompt. rewrite bind_run.
  destruct (set_system_prompt_cases clientid system_prompt w)
    as [[Hh ->] | (e & rest & Hf & ->)]; cbn [is_not_None ret fst snd db].
  - split; [reflexivity |]. intros e rest Hf. rewrite Hf in Hh. destruct Hh.
  - split; reflexivity.
Qed.

(** X15. With the store working, the route [GET /get-prompt/{clientid}]
    raises the 404 "Client not registered" exactly when no prompt is stored
    for the client or the stored prompt is the empty string, and answers
    with the stored prompt otherwise. *)
Theorem get_prompt_route_not_found clientid w :
  healthy 1 (faults w) ->
  ((Routes.get_system_prompt clientid w).1 = Raise Routes.not_found <->
   db w !! prompt_key clientid = None \/
   db w !! prompt_key clientid = Some (VString [])) /\
  (forall p, db w !! prompt_key clientid = Some (VString p) -> p <> [] ->
     (Routes.get_system_prompt clientid w).1 = Ok (Routes.prompt_body clientid p)).
Proof.
  intros Hh. unfold Routes.get_system_prompt, get_system_prompt.
  rewrite bind_run, get_value_run by exact Hh.
  destruct (db w !! prompt_key clientid) as [[[| c p] | l] |];
    cbn [truthy_opt truthy ret raise fst default]; split.
  - split; auto.
  - intros p' [= <-] Hp. contradiction.
  - split; [discriminate | intros [? | ?]; discriminate].
  - intros p' [= <-] _. reflexivity.
  - split; [discriminate | intros [? | ?]; discriminate].
  - intros p' ?. discriminate.
  - split; auto.
  - intros p' ?. discriminate.
Qed.

(** X16. The two routes one after the other, the store working: the prompt
    given to [POST /set-prompt] is the one [GET /get-prompt] answers with,
    unless it is the empty string, for which the second route raises the
    404 although the first has answered. *)
Theorem set_then_get_prompt_route clientid system_prompt w :
  healthy 2 (faults w) ->
  (Routes.get_system_prompt clientid
     (Routes.set_system_prompt clientid system_prompt w).2).1
  = if truthy system_prompt then Ok (Routes.prompt_body clientid system_prompt)
    else Raise Routes.not_found.
Proof.
  intros Hh. unfold Routes.set_system_prompt at 1. rewrite bind_run.
  destruct (set_system_prompt_cases clientid system_prompt w)
    as [[_ ->] | (e & rest & Hf & _)].
  - cbn [is_not_None ret snd]. unfold Routes.get_system_prompt, get_system_prompt.
    rewrite bind_run, get_value_run by (cbn [faults]; apply healthy_tail, Hh).
    cbn [db]. rewrite lookup_insert_eq. cbn [truthy_opt default].
    destruct (truthy system_prompt); reflexivity.
  - rewrite Hf in Hh. destruct Hh.
Qed.

(** X17. Behind their dependency the two routes of the prompt do nothing
    for a wrong secret: the call raises the 403 "Invalid or missing secret
    key." and no command reaches the store. With the right secret they are
    the routes themselves. *)
Theorem prompt_routes_need_secret SECRET_KEY x_secret_key clientid system_prompt w :
  (x_secret_key <> SECRET_KEY ->
   Routes.set_prompt_endpoint SECRET_KEY x_secret_key clientid system_prompt w
     = (Raise Dependencies.forbidden, w) /\
   Routes.get_prompt_endpoint SECRET_KEY x_secret_key clientid w
     = (Raise Dependencies.forbidden, w)) /\
  (x_secret_key = SECRET_KEY ->
   Routes.set_prompt_endpoint SECRET_KEY x_secret_key clientid system_prompt w
     = Routes.set_system_prompt clientid system_prompt w /\
   Routes.get_prompt_endpoint SECRET_KEY x_secret_key clientid w
     = Routes.get_system_prompt clientid w).
Proof.
  unfold Routes.set_prompt_endpoint, Routes.get_prompt_endpoint,
    Dependencies.depends, Dependencies.verify_secret, lift.
  rewrite !bind_run.
  destruct (str_eqb x_secret_key SECRET_KEY) eqn:Heq; cbn [negb].
  - apply str_eqb_eq in Heq. split; [contradiction | auto].
  - split; [auto |]. intros ->.
    assert (Htrue : str_eqb SECRET_KEY SECRET_KEY = true) by (apply str_eqb_eq; reflexivity).
    congruence.
Qed.

(** ** The settings read at import *)

(** X18. The package imports exactly when the environment sets
    GROQ_API_KEY and REDIS_PASSWORD, to anything, and SECRET_KEY to a string
    that is not empty: REDIS_HOST and REDIS_PORT are in the list of the
    mandatory settings but have defaults, so they are never missing. With
    GROQ_API_KEY or REDIS_PASSWORD unset the import raises the 401
    exception, whatever SECRET_KEY is. *)
Theorem import_needs_three_settings (env : gmap str str) :
  ((exists s, App.import_app env = inl s) <->
   is_Some (env !! lit "GROQ_API_KEY") /\ is_Some (env !! lit "REDIS_PASSWORD") /\
   exists v, env !! lit "SECRET_KEY" = Some v /\ v <> []) /\
  (App.import_app env = inr App.missing_credentials <->
   env !! lit "GROQ_API_KEY" = None \/ env !! lit "REDIS_PASSWORD" = None).
Proof.
  unfold App.import_app, App.read_settings, App.getenv.
  cbn [App.GROQ_API_KEY App.REDIS_HOST App.REDIS_PORT App.REDIS_PASSWORD
       App.SECRET_KEY].
  destruct (env !! lit "GROQ_API_KEY") as [g |];
    destruct (env !! lit "REDIS_HOST") as [h |];
    destruct (env !! lit "REDIS_PORT") as [p |];
    destruct (env !! lit "REDIS_PASSWORD") as [pw |];
    destruct (env !! lit "SECRET_KEY") as [[| c k] |];
    cbn [App.check_mandatory App.not_setting truthy negb];
    (split; split;
     [ try (intros [s Hs]; discriminate);
       try (intros _; repeat split; eauto; discriminate)
     | try (intros (Hg & Hp & v & Hv & Hne);
            first [ destruct Hg as [? Hg]; discriminate
                  | destruct Hp as [? Hp]; discriminate
                  | injection Hv as <-; contradiction
                  | discriminate
                  | eauto ])
     | try discriminate; auto
     | try (intros [Hc | Hc]; discriminate); auto ]).
Qed.

Section ChatLog.
Context `{RT : Runtime}.

(** X19. A log that the formatter can read stays readable: when the log of
    the session decodes to the turns ts and the call succeeds with a reply,
    the log afterwards decodes to ts followed by the user's turn with the
    query and the assistant's turn with the reply. *)
Theorem chat_keeps_log_readable user_id client_id query w reply w' turns :
  rmap decode_turn (log_of (db w) (chat_id user_id client_id)) = Ok turns ->
  unicode_text query -> unicode_text reply ->
  chat_body user_id client_id query w = (Ok reply, w') ->
  rmap decode_turn (log_of (db w') (chat_id user_id client_id))
  = Ok (turns ++ [ {| role := lit "user"; text := query |};
                   {| role := lit "assistant"; text := reply |} ]).
Proof.
  intros Hturns Hq Hr Hbody.
  rewrite chat_body_split in Hbody.
  destruct (converse_to_reply user_id client_id query w) as [[r | e] w3] eqn:Hreply;
    [| discriminate].
  destruct (append_assistant user_id client_id r w3) as [[[] | e] w4] eqn:Happend;
    [| discriminate].
  injection Hbody as -> ->.
  apply store_message_ok in Happend as [_ ->].
  unfold converse_to_reply in Hreply.
  apply bind_ok in Hreply as (prompt & w2 & Hprep & Hinvoke).
  rewrite invoke_run in Hinvoke. injection Hinvoke as _ <-.
  apply prepare_ok in Hprep as (p & _ & _ & _ & -> & _).
  cbn [db]. rewrite !log_of_insert, !rmap_snoc, Hturns. cbn [rbind].
  unfold user_message.
  rewrite !decode_turn_message
    by (assumption || (apply unicode_text_lit; reflexivity)).
  cbn [rbind]. rewrite <- app_assoc. reflexivity.
Qed.

End ChatLog.

(** *** The theorems above with hypotheses, at explicit inputs *)

Lemma prompt_set_then_get_witness :
  set_system_prompt (lit "15") (lit "You are helpful.") empty_world
    = (Ok true, (set_system_prompt (lit "15") (lit "You are helpful.") empty_world).2) /\
  healthy 1 (faults (set_system_prompt (lit "15") (lit "You are helpful.") empty_world).2) /\
  (get_system_prompt (lit "15")
     (set_system_prompt (lit "15") (lit "You are helpful.") empty_world).2).1
    = Ok (Some (lit "You are helpful.")).
Proof.
  split; [vm_compute; reflexivity |]. split; [exact I |].
  rewrite (prompt_set_then_get (lit "15") (lit "You are helpful.") empty_world
             (set_system_prompt (lit "15") (lit "You are helpful.") empty_world).2).
  - reflexivity.
  - vm_compute. reflexivity.
  - exact I.
Defined.

Lemma store_then_read_witness :
  RedisService.store_message (lit "12:15") (lit "second") logged_world
    = (Ok tt, (RedisService.store_message (lit "12:15") (lit "second") logged_world).2) /\
  healthy 1 (faults (RedisService.store_message (lit "12:15") (lit "second") logged_world).2) /\
  (RedisService.get_messages (lit "12:15")
     (RedisService.store_message (lit "12:15") (lit "second") logged_world).2).1
    = Ok [user_message (lit "hello"); lit "second"].
Proof.
  split; [vm_compute; reflexivity |]. split; [exact I |].
  rewrite (store_then_read (lit "12:15") (lit "second") logged_world tt
             (RedisService.store_message (lit "12:15") (lit "second") logged_world).2).
  - vm_compute. reflexivity.
  - vm_compute. reflexivity.
  - exact I.
Defined.

Lemma delete_chat_empties_witness :
  RedisService.delete_chat (lit "12:15") logged_world
    = (Ok tt, (RedisService.delete_chat (lit "12:15") logged_world).2) /\
  healthy 1 (faults (RedisService.delete_chat (lit "12:15") logged_world).2) /\
  (RedisService.get_messages (lit "12:15")
     (RedisService.delete_chat (lit "12:15") logged_world).2).1 = Ok [] /\
  (RedisService.check_redis_key (lit "12:15")
     (RedisService.delete_chat (lit "12:15") logged_world).2).1 = Ok false.
Proof.
  split; [vm_compute; reflexivity |]. split; [exact I |].
  destruct (delete_chat_empties (lit "12:15") logged_world tt
              (RedisService.delete_chat (lit "12:15") logged_world).2)
    as (Hread & Hexists & _).
  - vm_compute. reflexivity.
  - exact I.
  - split; assumption.
Defined.

Lemma stored_session_exists_witness :
  RedisService.store_message (lit "12:15") (lit "first") empty_world
    = (Ok tt, (RedisService.store_message (lit "12:15") (lit "first") empty_world).2) /\
  healthy 1 (faults (RedisService.store_message (lit "12:15") (lit "first") empty_world).2) /\
  (RedisService.check_redis_key (lit "12:15")
     (RedisService.store_message (lit "12:15") (lit "first") empty_world).2).1 = Ok true.
Proof.
  split; [vm_compute; reflexivity |]. split; [exact I |].
  apply (stored_session_exists (lit "12:15") (lit "first") empty_world tt).
  - vm_compute. reflexivity.
  - exact I.
Defined.

Lemma chat_success_witness :
  chat_body (RT := runtime_four) (lit "12") (lit "15") (lit "hi") (registered_world [])
    = (Ok (lit "4"),
       (chat_body (RT := runtime_four) (lit "12") (lit "15") (lit "hi")
          (registered_world [])).2) /\
  log_of (db (chat_body (RT := runtime_four) (lit "12") (lit "15") (lit "hi")
                (registered_world [])).2) (lit "12:15")
    = [user_message (lit "hi"); assistant_message (lit "4")].
Proof.
  split; [vm_compute; reflexivity |].
  destruct (chat_success (RT := runtime_four) (lit "12") (lit "15") (lit "hi")
              (registered_world []) (lit "4")
              (chat_body (RT := runtime_four) (lit "12") (lit "15") (lit "hi")
                 (registered_world [])).2)
    as (_ & prompt & _ & _ & Hlog).
  - vm_compute. reflexivity.
  - exact Hlog.
Defined.

Lemma delete_prompt_unregisters_witness :
  RedisService.delete_key (prompt_key (lit "15")) (registered_world [])
    = (Ok tt, (RedisService.delete_key (prompt_key (lit "15")) (registered_world [])).2) /\
  healthy 1 (faults (RedisService.delete_key (prompt_key (lit "15"))
                       (registered_world [])).2) /\
  (chat (RT := runtime_four) (lit "12") (lit "15") (lit "hi")
     (RedisService.delete_key (prompt_key (lit "15")) (registered_world [])).2).1
    = Ok (lit "Error occurred: 403: Client not registered or unauthorized.").
Proof.
  split; [vm_compute; reflexivity |]. split; [exact I |].
  destruct (delete_prompt_unregisters (RT := runtime_four) (lit "12") (lit "15") (lit "hi")
              (registered_world []) tt
              (RedisService.delete_key (prompt_key (lit "15")) (registered_world [])).2)
    as [_ Hchat].
  - vm_compute. reflexivity.
  - exact I.
  - rewrite Hchat. reflexivity.
Defined.

Lemma unreadable_log_blocks_chat_witness :
  db unreadable_world !! prompt_key (lit "15") = Some (VString (lit "You are helpful.")) /\
  truthy (lit "You are helpful.") = true /\
  healthy 3 (faults unreadable_world) /\
  (forall s, db unreadable_world !! chat_key (chat_id (lit "12") (lit "15"))
             <> Some (VString s)) /\
  rmap (format_message (RT := runtime_four))
       (log_of (db unreadable_world) (chat_id (lit "12") (lit "15")))
    = Raise (JSONDecodeError (lit "not a record")) /\
  (chat (RT := runtime_four) (lit "12") (lit "15") (lit "hi") unreadable_world).1
    = Ok (lit "Error occurred: Expecting value") /\
  sent (chat (RT := runtime_four) (lit "12") (lit "15") (lit "hi") unreadable_world).2 = [].
Proof.
  assert (Hp : db unreadable_world !! prompt_key (lit "15")
               = Some (VString (lit "You are helpful."))) by (vm_compute; reflexivity).
  assert (Hl : forall s, db unreadable_world !! chat_key (chat_id (lit "12") (lit "15"))
                         <> Some (VString s)) by (intros s; vm_compute; discriminate).
  assert (Hr : rmap (format_message (RT := runtime_four))
                 (log_of (db unreadable_world) (chat_id (lit "12") (lit "15")))
               = Raise (JSONDecodeError (lit "not a record"))) by (vm_compute; reflexivity).
  split; [exact Hp |]. split; [reflexivity |]. split; [exact I |].
  split; [exact Hl |]. split; [exact Hr |].
  destruct (unreadable_log_blocks_chat (RT := runtime_four) (lit "12") (lit "15") (lit "hi")
              unreadable_world (lit "You are helpful.")
              (JSONDecodeError (lit "not a record")) Hp eq_refl I Hl Hr)
    as (Hreply & Hsent & _).
  split; [exact Hreply | exact Hsent].
Defined.


Lemma get_prompt_route_not_found_witness :
  healthy 1 (faults empty_world) /\
  (Routes.get_system_prompt (lit "15") empty_world).1 = Raise Routes.not_found /\
  (Routes.get_system_prompt (lit "15") (registered_world [])).1
    = Ok (Routes.prompt_body (lit "15") (lit "You are helpful.")).
Proof.
  split; [exact I |]. split.
  - apply (get_prompt_route_not_found (lit "15") empty_world I). left. reflexivity.
  - apply (get_prompt_route_not_found (lit "15") (registered_world []) I).
    + vm_compute. reflexivity.
    + discriminate.
Defined.

Lemma set_then_get_prompt_route_witness :
  healthy 2 (faults empty_world) /\
  (Routes.get_system_prompt (lit "15")
     (Routes.set_system_prompt (lit "15") (lit "You are helpful.") empty_world).2).1
    = Ok (Routes.prompt_body (lit "15") (lit "You are helpful.")) /\
  (Routes.get_system_prompt (lit "15")
     (Routes.set_system_prompt (lit "15") [] empty_world).2).1
    = Raise Routes.not_found.
Proof.
  split; [exact I |]. split.
  - exact (set_then_get_prompt_route (lit "15") (lit "You are helpful.") empty_world I).
  - exact (set_then_get_prompt_route (lit "15") [] empty_world I).
Defined.

Lemma prompt_routes_need_secret_witness :
  lit "guess" <> lit "s3cret" /\
  Routes.set_prompt_endpoint (lit "s3cret") (lit "guess") (lit "15") (lit "Be evil.")
    (registered_world [])
    = (Raise Dependencies.forbidden, registered_world []).
Proof.
  split; [discriminate |].
  apply (prompt_routes_need_secret (lit "s3cret") (lit "guess") (lit "15") (lit "Be evil.")
           (registered_world [])).
  discriminate.
Defined.

Lemma assemble_refines_spec_witness :
  [user_message (lit "hi")] <> [] /\
  rmap (decode_turn (RT := runtime_four)) [user_message (lit "hi")]
    = Ok [ {| role := lit "user"; text := lit "hi" |} ] /\
  assemble (RT := runtime_four) (Some (message (lit "system") (lit "P")))
    [user_message (lit "hi")] (lit "q")
    = Ok (assemble_spec (Some (lit "P")) [ {| role := lit "user"; text := lit "hi" |} ]
            (lit "q")).
Proof.
  split; [discriminate |]. split; [vm_compute; reflexivity |].
  apply (assemble_refines_spec (RT := runtime_four) (lit "P") [user_message (lit "hi")]
           [ {| role := lit "user"; text := lit "hi" |} ] (lit "q")).
  - discriminate.
  - vm_compute. reflexivity.
Defined.

Lemma chat_keeps_log_readable_witness :
  rmap (decode_turn (RT := runtime_four))
       (log_of (db (registered_world [])) (chat_id (lit "12") (lit "15"))) = Ok [] /\
  unicode_text (lit "hi") /\ unicode_text (lit "4") /\
  chat_body (RT := runtime_four) (lit "12") (lit "15") (lit "hi") (registered_world [])
    = (Ok (lit "4"),
       (chat_body (RT := runtime_four) (lit "12") (lit "15") (lit "hi")
          (registered_world [])).2) /\
  rmap (decode_turn (RT := runtime_four))
       (log_of (db (chat_body (RT := runtime_four) (lit "12") (lit "15") (lit "hi")
                      (registered_world [])).2) (chat_id (lit "12") (lit "15")))
    = Ok [ {| role := lit "user"; text := lit "hi" |};
           {| role := lit "assistant"; text := lit "4" |} ].
Proof.
  assert (Hq : unicode_text (lit "hi")) by (apply unicode_text_lit; reflexivity).
  assert (Hr : unicode_text (lit "4")) by (apply unicode_text_lit; reflexivity).
  split; [vm_compute; reflexivity |]. split; [exact Hq |]. split; [exact Hr |].
  split; [vm_compute; reflexivity |].
  apply (chat_keeps_log_readable (RT := runtime_four) (lit "12") (lit "15") (lit "hi")
           (registered_world []) (lit "4") _ []).
  - vm_compute. reflexivity.
  - exact Hq.
  - exact Hr.
  - vm_compute. reflexivity.
Defined.
